(** * zenflow: the smart task generator (smart_task_generator.py)

    A shallow embedding of the FACT checker, the research engine, the ADR
    generator and the task generator, followed by the properties of the
    pipeline.

    Conventions of the model.
    - A Python [str] is a [string]: a sequence of 8-bit characters.  Letters,
      digits and white space are the ASCII ones; [str.lower] lowers [A-Z].
    - A Python [dict] whose iteration order is observed ([code_database]) is
      an association list in insertion order; the static tables, which are
      only looked up, are [gmap]s.
    - The file system is a tree of directories and text files.
      [Path.read_text] of a directory raises, which is the one exception the
      pipeline can raise in this model. *)

From stdpp Require Import gmap strings list sorting.
From Stdlib Require Import Ascii DecimalString.
From Stdlib Require DecimalNat DecimalFacts.
From Stdlib Require QArith_base.

(** ** Python strings *)

Module Py.

Definition code (c : ascii) : nat := Ascii.nat_of_ascii c.

Definition is_upper (c : ascii) : bool :=
  (65 <=? code c) && (code c <=? 90).

(** [\w] of the [re] module, on ASCII. *)
Definition is_word (c : ascii) : bool :=
  ((97 <=? code c) && (code c <=? 122))
  || is_upper c
  || ((48 <=? code c) && (code c <=? 57))
  || (code c =? 95).

(** [str.isspace], which is also [\s] of the [re] module, on ASCII. *)
Definition is_space (c : ascii) : bool :=
  ((9 <=? code c) && (code c <=? 13))
  || ((28 <=? code c) && (code c <=? 32)).

Definition lower_char (c : ascii) : ascii :=
  if is_upper c then Ascii.ascii_of_nat (code c + 32) else c.

(** [s.lower()] *)
Fixpoint lower (s : string) : string :=
  match s with
  | EmptyString => EmptyString
  | String c s' => String (lower_char c) (lower s')
  end.

(** [s.startswith(p)] *)
Fixpoint startswith (p s : string) : bool :=
  match p, s with
  | EmptyString, _ => true
  | String a p', String b s' => if decide (a = b) then startswith p' s' else false
  | String _ _, EmptyString => false
  end.

(** [sub in s] *)
Fixpoint contains (sub s : string) : bool :=
  startswith sub s
  || match s with
     | EmptyString => false
     | String _ s' => contains sub s'
     end.

(** [s.endswith(p)] *)
Fixpoint endswith (p s : string) : bool :=
  bool_decide (s = p)
  || match s with
     | EmptyString => false
     | String _ s' => endswith p s'
     end.

(** [s.split(sep)] for a separator of one character; [cur] is the piece
    being read. *)
Fixpoint split_from (sep : ascii) (cur s : string) : list string :=
  match s with
  | EmptyString => [cur]
  | String c s' =>
      if decide (c = sep) then cur :: split_from sep EmptyString s'
      else split_from sep (cur +:+ String c EmptyString) s'
  end.

Definition split (sep : ascii) (s : string) : list string :=
  split_from sep EmptyString s.

Fixpoint lstrip (s : string) : string :=
  match s with
  | EmptyString => EmptyString
  | String c s' => if is_space c then lstrip s' else s
  end.

(** [s.strip()] *)
Definition strip (s : string) : string :=
  String.rev (lstrip (String.rev (lstrip s))).

(** [s.replace(a, b)] for single characters. *)
Fixpoint replace (a b : ascii) (s : string) : string :=
  match s with
  | EmptyString => EmptyString
  | String c s' => String (if decide (c = a) then b else c) (replace a b s')
  end.

(** [sep.join(l)] *)
Fixpoint join (sep : string) (l : list string) : string :=
  match l with
  | [] => EmptyString
  | [x] => x
  | x :: l' => x +:+ sep +:+ join sep l'
  end.

(** [s.rfind(c)] for one character: the index of its last occurrence. *)
Fixpoint rfind (c : ascii) (s : string) : option nat :=
  match s with
  | EmptyString => None
  | String a s' =>
      match rfind c s' with
      | Some i => Some (S i)
      | None => if decide (a = c) then Some 0 else None
      end
  end.

(** [s[:n]] *)
Fixpoint take (n : nat) (s : string) : string :=
  match n, s with
  | S n', String c s' => String c (take n' s')
  | _, _ => EmptyString
  end.

(** [s[n:]] *)
Fixpoint drop (n : nat) (s : string) : string :=
  match n, s with
  | S n', String _ s' => drop n' s'
  | _, _ => s
  end.

(** The longest prefix of [s] whose characters satisfy [f], and the rest. *)
Fixpoint span (f : ascii -> bool) (s : string) : string * string :=
  match s with
  | EmptyString => (EmptyString, EmptyString)
  | String c s' =>
      if f c then let '(w, r) := span f s' in (String c w, r)
      else (EmptyString, s)
  end.

(** [str(n)] and [f"{n}"] for a natural number. *)
Definition str_of_nat (n : nat) : string :=
  NilZero.string_of_uint (Nat.to_uint n).

Fixpoint zeros (n : nat) : string :=
  match n with
  | 0 => EmptyString
  | S n' => String "0"%char (zeros n')
  end.

(** [f"{n:0Kd}"]: decimal digits, padded on the left with zeros to [width]. *)
Definition zfill (width n : nat) : string :=
  let digits := str_of_nat n in
  zeros (width - String.length digits) +:+ digits.

(** The truth value of a list: [if l]. *)
Definition truthy {A} (l : list A) : bool :=
  match l with
  | [] => false
  | _ :: _ => true
  end.

(** [enumerate(l, start)] *)
Fixpoint enumerate {A} (start : nat) (l : list A) : list (nat * A) :=
  match l with
  | [] => []
  | x :: l' => (start, x) :: enumerate (S start) l'
  end.

End Py.

(** ** pathlib paths and the file system *)

(** A [pathlib.Path] in normal form: whether it starts at the root
    directory, and its components. *)
Record Path := mkPath { absolute : bool; parts : list string }.

Module PathOps.

(** [str(p)] *)
Definition str (p : Path) : string :=
  if absolute p then "/" +:+ Py.join "/" (parts p)
  else match parts p with
       | [] => "."
       | _ => Py.join "/" (parts p)
       end.

(** [p.name]: the final component. *)
Definition name (p : Path) : string := List.last (parts p) "".

(** The stem of a file name: the name without its last suffix.  A dot at
    the first or last position starts no suffix. *)
Definition stem_of (nm : string) : string :=
  match Py.rfind "."%char nm with
  | Some i =>
      if (0 <? i) && (i <? String.length nm - 1) then Py.take i nm else nm
  | None => nm
  end.

(** [p.stem] *)
Definition stem (p : Path) : string := stem_of (name p).

(** [p / rel] where [rel] is given by its components. *)
Definition joinpath (p : Path) (rel : list string) : Path :=
  mkPath (absolute p) (parts p ++ rel).

End PathOps.

Notation "p // rel" := (PathOps.joinpath p rel) (at level 40, left associativity).

(** What a path of the tree leads to: a text file with the text
    [read_text] decodes from it, or a directory with its entries in the order
    in which the directory is listed. *)
#[warnings="-register-all"]
Inductive node :=
| File (content : string)
| Dir (entries : list (string * node)).

(** The one exception of the model. *)
Inductive exn := IsADirectoryError (path : string).

Inductive result (A : Type) :=
| Ok (a : A)
| Raise (e : exn).
Arguments Ok {A} a.
Arguments Raise {A} e.

(** Sequencing: an exception ends the computation ([x ← r; k] below). *)
#[global] Instance result_bind : MBind result := fun A B k r =>
  match r with
  | Ok a => k a
  | Raise e => Raise e
  end.

#[global] Instance result_ret : MRet result := fun A a => Ok a.

#[global] Instance result_fmap : FMap result := fun A B f r =>
  match r with
  | Ok a => Ok (f a)
  | Raise e => Raise e
  end.

Module FS.

(** [p.read_text()] where [p] leads to [n]. *)
Definition read_text (p : Path) (n : node) : result string :=
  match n with
  | File content => Ok content
  | Dir _ => Raise (IsADirectoryError (PathOps.str p))
  end.

(** The pattern ["*.erl"] on one file name. *)
Definition matches_erl (nm : string) : bool := Py.endswith ".erl" nm.

(** The entries of one directory that match ["*.erl"], in listing order:
    what [p.glob("*.erl")] yields when [p] is a directory with these
    entries. *)
Definition select (p : Path) (entries : list (string * node)) : list (Path * node) :=
  (fun '(nm, n) => (p // [nm], n)) <$> filter (fun e => Is_true (matches_erl e.1)) entries.

(** [p.rglob("*.erl")]: the matching entries of [p] itself, then those of
    each subdirectory, recursively, in listing order. *)
Fixpoint rglob (p : Path) (n : node) : list (Path * node) :=
  match n with
  | File _ => []
  | Dir entries =>
      select p entries
      ++ (fix below (l : list (string * node)) : list (Path * node) :=
            match l with
            | [] => []
            | (nm, sub) :: l' => rglob (p // [nm]) sub ++ below l'
            end) entries
  end.

(** The entry called [nm] of a directory listing. *)
Fixpoint entry (nm : string) (entries : list (string * node)) : option node :=
  match entries with
  | [] => None
  | (nm', n) :: l => if decide (nm' = nm) then Some n else entry nm l
  end.

(** What the relative path [rel] leads to from [n], if anything. *)
Fixpoint resolve (n : node) (rel : list string) : option node :=
  match rel with
  | [] => Some n
  | nm :: rel' =>
      match n with
      | File _ => None
      | Dir entries =>
          match entry nm entries with
          | Some sub => resolve sub rel'
          | None => None
          end
      end
  end.

(** [reaches n rel target]: following the names [rel] from [n] leads to
    [target]. *)
Fixpoint reaches (n : node) (rel : list string) (target : node) : Prop :=
  match rel with
  | [] => n = target
  | nm :: rel' =>
      match n with
      | File _ => False
      | Dir entries => exists sub, (nm, sub) ∈ entries /\ reaches sub rel' target
      end
  end.

(** [(root / rel).glob("*.erl")] where [root] leads to [n]: nothing when
    [root / rel] is missing or is not a directory. *)
Definition glob (root : Path) (n : node) (rel : list string) : list (Path * node) :=
  match resolve n rel with
  | Some (Dir entries) => select (root // rel) entries
  | _ => []
  end.

End FS.

(** ** Regular expressions of the FACT database *)

Module Re.

Definition newline : ascii := "010"%char.

(** [re.findall] for a pattern with one group that matches no empty
    string: [m bol s] matches the pattern at the start of [s], where [bol]
    says whether that position starts a line, and gives the group and the
    number of characters matched.  The scan goes left to right and resumes
    after each match: [skip] characters still belong to the last match. *)
Fixpoint findall_from (m : bool -> string -> option (string * nat))
    (bol : bool) (skip : nat) (s : string) : list string :=
  match s with
  | EmptyString => []
  | String c s' =>
      let bol' := bool_decide (c = newline) in
      match skip with
      | S k => findall_from m bol' k s'
      | 0 =>
          match m bol s with
          | Some (group, n) => group :: findall_from m bol' (n - 1) s'
          | None => findall_from m bol' 0 s'
          end
      end
  end.

Definition findall (m : bool -> string -> option (string * nat)) (s : string) : list string :=
  findall_from m true 0 s.

(** [^(\w+)\([^)]*\)\s*->] with [re.MULTILINE].  Each repetition is
    followed by a character it cannot match, so the greedy choice is the
    only one. *)
Definition function_signature (bol : bool) (s : string) : option (string * nat) :=
  if bol then
    let '(w, r0) := Py.span Py.is_word s in
    match w, r0 with
    | String _ _, String "("%char r1 =>
        let '(_, r2) := Py.span (fun c => negb (bool_decide (c = ")"%char))) r1 in
        match r2 with
        | String ")"%char r3 =>
            let '(_, r4) := Py.span Py.is_space r3 in
            match r4 with
            | String "-"%char (String ">"%char r5) =>
                Some (w, String.length s - String.length r5)
            | _ => None
            end
        | _ => None
        end
    | _, _ => None
    end
  else None.

(** [-behaviour\((\w+)\)] *)
Definition behaviour (_ : bool) (s : string) : option (string * nat) :=
  if Py.startswith "-behaviour(" s then
    let '(w, r) := Py.span Py.is_word (Py.drop 11 s) in
    match w, r with
    | String _ _, String ")"%char _ => Some (w, 11 + String.length w + 1)
    | _, _ => None
    end
  else None.

(** [(handle_call|handle_cast|handle_info|init|terminate)]: the first
    alternative that matches. *)
Definition genserver (_ : bool) (s : string) : option (string * nat) :=
  (fun w => (w, String.length w)) <$>
    List.find (fun w => Py.startswith w s)
      ["handle_call"; "handle_cast"; "handle_info"; "init"; "terminate"].

End Re.

(** ** Python dictionaries in insertion order *)

Module Dict.

(** [d[k] = v]: a key already present keeps its position. *)
Fixpoint set {V} (k : string) (v : V) (d : list (string * V)) : list (string * V) :=
  match d with
  | [] => [(k, v)]
  | (k', v') :: d' => if decide (k' = k) then (k, v) :: d' else (k', v') :: set k v d'
  end.

Definition keys {V} (d : list (string * V)) : list string := fst <$> d.

End Dict.

(** ** class FactChecker *)

(** One value of [code_database].  The source also stores [content_hash], an
    MD5 digest of the text that nothing reads; it is left out. *)
Record FileData := mkFileData {
  functions : list string;
  behaviors : list string;
  patterns : list string
}.

Record Finding := mkFinding {
  finding_file : string;
  finding_type : string;
  confidence : QArith_base.Q
}.

(** The dictionary [check_implementation_exists] returns. *)
Record FactCheck := mkFactCheck {
  exists_ : bool;
  findings : list Finding;
  recommendation : string
}.

Record FactChecker := mkFactChecker {
  fc_singularity_path : Path;
  code_database : list (string * FileData)
}.

Module FactCheckerM.

(** The body of the loop of [_build_code_database], from the text read. *)
Definition analyse (content : string) : FileData :=
  {| functions := Re.findall Re.function_signature content;
     behaviors := Re.findall Re.behaviour content;
     patterns := Re.findall Re.genserver content |}.

(** The loop of [_build_code_database] over the files still to visit. *)
Fixpoint build_loop (files : list (Path * node)) (db : list (string * FileData))
    : result (list (string * FileData)) :=
  match files with
  | [] => Ok db
  | (code_file, n) :: rest =>
      content ← FS.read_text code_file n;
      build_loop rest (Dict.set (PathOps.str code_file) (analyse content) db)
  end.

(** [_build_code_database], run on the tree [tree] that [singularity_path]
    leads to. *)
Definition _build_code_database (singularity_path : Path) (tree : node)
    : result (list (string * FileData)) :=
  build_loop (FS.rglob singularity_path tree) [].

(** [FactChecker(singularity_path)] *)
Definition new (singularity_path : Path) (tree : node) : result FactChecker :=
  db ← _build_code_database singularity_path tree;
  Ok (mkFactChecker singularity_path db).

(** The two tests of the loop body for one item of [code_database]. *)
Definition findings_of (function_name module_pattern : string)
    (item : string * FileData) : list Finding :=
  let '(file_path, data) := item in
  (if bool_decide (function_name ∈ functions data)
   then [mkFinding file_path "function_exists" (QArith_base.Qmake 9 10)] else [])
  ++ (if Py.contains module_pattern file_path
      then [mkFinding file_path "similar_module" (QArith_base.Qmake 7 10)] else []).

Definition check_implementation_exists (self : FactChecker)
    (function_name module_pattern : string) : FactCheck :=
  let findings :=
    foldl (fun findings item => findings ++ findings_of function_name module_pattern item)
      [] (code_database self) in
  {| exists_ := bool_decide (0 < length findings);
     findings := findings;
     recommendation := if Py.truthy findings then "skip" else "implement" |}.

End FactCheckerM.

(** ** class ResearchEngine *)

(** The values of the research dictionaries: a string or a list of strings. *)
Inductive pyval :=
| PStr (s : string)
| PList (l : list string).

Module ResearchEngine.

Definition patterns_db : gmap string (gmap string pyval) :=
  list_to_map [
    ("consistent_hashing", list_to_map [
       ("algorithms", PList ["SHA-1 ring"; "Jump consistent hash"; "Rendezvous hashing"]);
       ("erlang_libs", PList ["riak_core"; "hash_ring"; "consistent_hash"]);
       ("recommendation", PStr "Use riak_core for production-grade consistent hashing")]);
    ("gossip_protocol", list_to_map [
       ("algorithms", PList ["Epidemic broadcast"; "Anti-entropy"; "Rumor mongering"]);
       ("erlang_libs", PList ["partisan"; "plumtree"; "scamp"]);
       ("recommendation", PStr "Use plumtree for efficient gossip with tree optimization")]);
    ("rust_nif", list_to_map [
       ("patterns", PList ["Resource management"; "Dirty schedulers"; "Message passing"]);
       ("best_practices", PList ["Use ResourceArc"; "Handle timeouts"; "Avoid blocking"]);
       ("recommendation", PStr "Use rustler with proper resource lifecycle management")]);
    ("supervision", list_to_map [
       ("strategies", PList ["one_for_one"; "one_for_all"; "rest_for_one"; "simple_one_for_one"]);
       ("recommendation", PStr "Use one_for_one for independent processes like memory shards")])
  ].

Definition research_erlang_pattern (pattern : string) : gmap string pyval :=
  default
    (list_to_map [
       ("recommendation",
        PStr ("Research " +:+ pattern +:+ " patterns in Erlang/OTP documentation"))])
    (patterns_db !! pattern).

End ResearchEngine.

(** ** class ADRGenerator *)

Record Consequences := mkConsequences {
  positive : list string;
  negative : list string
}.

(** An ADR dictionary.  The keys [id] and [status] are absent from the
    templates and set by [_generate_required_adrs]. *)
Record ADR := mkADR {
  adr_title : string;
  adr_context : string;
  adr_options : list string;
  adr_decision : string;
  adr_rationale : string;
  adr_consequences : Consequences;
  adr_id : option string;
  adr_status : option string
}.

(** [adr['id'] = v] *)
Definition set_id (adr : ADR) (v : string) : ADR :=
  {| adr_title := adr_title adr;
     adr_context := adr_context adr;
     adr_options := adr_options adr;
     adr_decision := adr_decision adr;
     adr_rationale := adr_rationale adr;
     adr_consequences := adr_consequences adr;
     adr_id := Some v;
     adr_status := adr_status adr |}.

(** [adr['status'] = v] *)
Definition set_status (adr : ADR) (v : string) : ADR :=
  {| adr_title := adr_title adr;
     adr_context := adr_context adr;
     adr_options := adr_options adr;
     adr_decision := adr_decision adr;
     adr_rationale := adr_rationale adr;
     adr_consequences := adr_consequences adr;
     adr_id := adr_id adr;
     adr_status := Some v |}.

Module ADRGenerator.

Definition supervision_strategy : ADR :=
  {| adr_title := "Memory Service Supervision Strategy";
     adr_context := "Need to choose supervision strategy for memory shards and workers";
     adr_options := [
       "one_for_one: Independent restarts (recommended)";
       "one_for_all: Restart all on failure";
       "rest_for_one: Restart failed and subsequent processes" ];
     adr_decision := "one_for_one";
     adr_rationale := "Memory shards should be independent - one shard failure should not affect others";
     adr_consequences :=
       {| positive := ["Fault isolation"; "Better availability"];
          negative := ["Possible data inconsistency during restart"] |};
     adr_id := None;
     adr_status := None |}.

Definition consistent_hashing : ADR :=
  {| adr_title := "Consistent Hashing Algorithm Choice";
     adr_context := "Need consistent hashing for memory shard distribution";
     adr_options := [
       "SHA-1 ring: Simple but uneven distribution";
       "Jump consistent hash: Even distribution, complex rebalancing";
       "Rendezvous hashing: Simple, good for small clusters" ];
     adr_decision := "SHA-1 ring with virtual nodes";
     adr_rationale := "Balance between simplicity and distribution quality";
     adr_consequences :=
       {| positive := ["Well-understood algorithm"; "Good Erlang libraries"];
          negative := ["Requires virtual nodes for even distribution"] |};
     adr_id := None;
     adr_status := None |}.

Definition rust_nif_integration : ADR :=
  {| adr_title := "Rust NIF Integration Pattern";
     adr_context := "Need safe and efficient Rust NIF integration";
     adr_options := [
       "Direct NIFs: Fast but unsafe";
       "Resource pools: Safe with lifecycle management";
       "Port drivers: Safe but slower" ];
     adr_decision := "Resource pools with ResourceArc";
     adr_rationale := "Provides safety guarantees while maintaining performance";
     adr_consequences :=
       {| positive := ["Memory safety"; "Proper lifecycle management"];
          negative := ["Slightly more complex implementation"] |};
     adr_id := None;
     adr_status := None |}.

Definition adr_templates : gmap string ADR :=
  list_to_map [
    ("supervision_strategy", supervision_strategy);
    ("consistent_hashing", consistent_hashing);
    ("rust_nif_integration", rust_nif_integration)
  ].

(** [generate_adr(context)].  The table is built anew by every call, so
    the dictionary returned is shared with no other call. *)
Definition generate_adr (context : gmap string string) : ADR :=
  let pattern := default "default" (context !! "pattern") in
  default supervision_strategy (adr_templates !! pattern).

End ADRGenerator.

(** ** class SmartTaskGenerator *)

(** A task dictionary. *)
Record Task := mkTask {
  task_id : string;
  task_title : string;
  task_description : string;
  task_file : string;
  task_line : nat;
  task_type : string;
  task_pattern : string;
  task_hours : nat;
  task_fact_verified : bool;
  task_research : gmap string pyval;
  task_implementation_notes : pyval;
  task_priority : string
}.

(** The dictionary [generate_smart_tasks] returns. *)
Record Report := mkReport {
  tasks : list Task;
  adrs : list ADR;
  total_found : nat
}.

(** The attributes the methods read; the research engine and the ADR
    generator have no state. *)
Record SmartTaskGenerator := mkSmartTaskGenerator {
  fact_checker : FactChecker;
  singularity_path : Path
}.

Module SmartTaskGeneratorM.

(** [SmartTaskGenerator(singularity_path)], run on the tree that
    [singularity_path] leads to. *)
Definition new (singularity_path : Path) (tree : node) : result SmartTaskGenerator :=
  fc ← FactCheckerM.new singularity_path tree;
  Ok (mkSmartTaskGenerator fc singularity_path).

(** "Extract pattern from content": the chain of tests that opens
    [_create_verified_task]. *)
Definition extract_pattern (content : string) : string :=
  if Py.contains "consistent" (Py.lower content) then "consistent_hashing"
  else if Py.contains "gossip" (Py.lower content) then "gossip_protocol"
  else if Py.contains "nif" (Py.lower content) then "rust_nif"
  else "general".

Definition _create_verified_task (self : SmartTaskGenerator)
    (file_path : Path) (line_num : nat) (content task_type : string) : option Task :=
  let pattern := extract_pattern content in
  let fact_check :=
    FactCheckerM.check_implementation_exists (fact_checker self)
      pattern (PathOps.stem file_path) in
  if bool_decide (recommendation fact_check = "skip") then None
  else
    let research := ResearchEngine.research_erlang_pattern pattern in
    Some {|
      task_id := "SMART-" +:+ Py.str_of_nat (String.length (PathOps.str file_path))
                 +:+ ":" +:+ Py.str_of_nat line_num;
      task_title := "Implement " +:+ Py.replace "_"%char " "%char pattern
                    +:+ " in " +:+ PathOps.name file_path;
      task_description := Py.strip content;
      task_file := PathOps.str file_path;
      task_line := line_num;
      task_type := task_type;
      task_pattern := pattern;
      task_hours := if bool_decide (task_type = "stub") then 3 else 2;
      task_fact_verified := true;
      task_research := research;
      task_implementation_notes := default (PStr "") (research !! "recommendation");
      task_priority := if bool_decide (task_type = "stub") then "high" else "medium"
    |}.

Definition required_adrs : list (gmap string string) :=
  [ {[ "pattern" := "supervision_strategy" ]};
    {[ "pattern" := "consistent_hashing" ]};
    {[ "pattern" := "rust_nif_integration" ]} ].

Definition _generate_required_adrs : list ADR :=
  foldl (fun adrs adr_context =>
           let adr := ADRGenerator.generate_adr adr_context in
           let adr := set_id adr ("ADR-" +:+ Py.zfill 3 (length adrs + 1)) in
           let adr := set_status adr "needs_approval" in
           adrs ++ [adr])
    [] required_adrs.

Definition memory_dir : list string :=
  ["platform"; "memory-service"; "erlang"; "src"].

(** [if task: tasks.append(task)]; a task dictionary is never empty, so
    it is appended whenever it is not [None]. *)
Definition append_task (tasks : list Task) (task : option Task) : list Task :=
  match task with
  | Some t => tasks ++ [t]
  | None => tasks
  end.

Definition is_todo (line : string) : bool := Py.contains "TODO" line.

Definition is_stub (line : string) : bool :=
  Py.contains "error, unknown_request" line || Py.contains "error, not_implemented" line.

(** One of the two loops over the lines of a file: [test] selects the
    lines, [task_type] is the kind of task made of them. *)
Definition scan_lines (self : SmartTaskGenerator) (erl_file : Path)
    (test : string -> bool) (task_type : string)
    (content : string) (tasks : list Task) : list Task :=
  foldl (fun tasks '(i, line) =>
           if test line
           then append_task tasks (_create_verified_task self erl_file i line task_type)
           else tasks)
    tasks (Py.enumerate 1 (Py.split Re.newline content)).

(** The loop over the files of [memory_dir] still to visit. *)
Fixpoint scan_files (self : SmartTaskGenerator) (files : list (Path * node))
    (tasks : list Task) : result (list Task) :=
  match files with
  | [] => Ok tasks
  | (erl_file, n) :: rest =>
      content ← FS.read_text erl_file n;
      let tasks := scan_lines self erl_file is_todo "todo" content tasks in
      let tasks := scan_lines self erl_file is_stub "stub" content tasks in
      scan_files self rest tasks
  end.

(** [generate_smart_tasks], run on the tree [tree] that
    [self.singularity_path] leads to at the time of the call. *)
Definition generate_smart_tasks (self : SmartTaskGenerator) (tree : node) : result Report :=
  tasks ← scan_files self (FS.glob (singularity_path self) tree memory_dir) [];
  let adrs := _generate_required_adrs in
  Ok {| tasks := take 10 tasks;
        adrs := adrs;
        total_found := length tasks |}.

(** The first two statements of [main]: build the generator, then generate,
    both on the same tree. *)
Definition run (singularity_path : Path) (tree : node) : result Report :=
  generator ← new singularity_path tree;
  generate_smart_tasks generator tree.

End SmartTaskGeneratorM.

(** ** The markers of a scan

    A marker is one call of [_create_verified_task] by
    [generate_smart_tasks]: a line of interest, the file and the line number
    it was found at, and the kind of task asked for. *)

Record Marker := mkMarker {
  sourceFile : Path;
  lineNumber : nat;
  rawText : string;
  kind : string
}.

Module Scan.

Import SmartTaskGeneratorM.

(** The markers one loop over the lines of a file makes, in order. *)
Definition markers_in (test : string -> bool) (task_type : string)
    (erl_file : Path) (content : string) : list Marker :=
  (fun '(i, line) => mkMarker erl_file i line task_type) <$>
    filter (fun il => Is_true (test il.2)) (Py.enumerate 1 (Py.split Re.newline content)).

(** The markers of one file: the loop for TODOs, then the loop for stubs. *)
Definition markers_of_file (erl_file : Path) (content : string) : list Marker :=
  markers_in is_todo "todo" erl_file content
  ++ markers_in is_stub "stub" erl_file content.

(** The markers of the files read, file after file. *)
Definition markers (texts : list (Path * string)) : list Marker :=
  texts ≫= (fun '(erl_file, content) => markers_of_file erl_file content).

(** The task of a marker, if it passes the FACT check. *)
Definition verify (self : SmartTaskGenerator) (m : Marker) : option Task :=
  _create_verified_task self (sourceFile m) (lineNumber m) (rawText m) (kind m).

(** The texts of the files a glob yields. *)
Fixpoint read_all (files : list (Path * node)) : result (list (Path * string)) :=
  match files with
  | [] => Ok []
  | (f, n) :: rest =>
      content ← FS.read_text f n;
      texts ← read_all rest;
      Ok ((f, content) :: texts)
  end.

(** The order of the spec on tasks and markers: by file path, then by
    line number. *)
Definition key_le (a b : string * nat) : Prop :=
  match String.compare a.1 b.1 with
  | Lt => True
  | Eq => a.2 <= b.2
  | Gt => False
  end.

Definition task_key (t : Task) : string * nat := (task_file t, task_line t).

Definition marker_key (m : Marker) : string * nat :=
  (PathOps.str (sourceFile m), lineNumber m).

(** [ordered key l]: whenever [a] precedes [b] in [l], the key of [a] is
    at most the key of [b]. *)
Definition ordered {A} (key : A -> string * nat) (l : list A) : Prop :=
  forall i j a b, i < j -> l !! i = Some a -> l !! j = Some b -> key_le (key a) (key b).

(** [ascending key l]: the keys of [l] increase strictly along [l]. *)
Definition ascending {A} (key : A -> nat) (l : list A) : Prop :=
  StronglySorted (fun a b => key a < key b) l.

(** The label of an option of an ADR: the text before the colon. *)
Definition option_label (o : string) : string :=
  (Py.span (fun c => negb (bool_decide (c = ":"%char))) o).1.

(** The options of an ADR that its decision names. *)
Definition chosen_options (adr : ADR) : list string :=
  filter (fun o => Is_true (Py.startswith (option_label o) (adr_decision adr)))
    (adr_options adr).

(** [s] contains [kw] up to the case of its letters ([kw] in lower case). *)
Definition contains_nocase (kw s : string) : Prop :=
  exists pre w post, s = pre +:+ w +:+ post /\ Py.lower w = kw.

End Scan.

Arguments Scan.markers : simpl never.
Arguments Scan.markers_in : simpl never.

(** ** Inputs used as examples *)

Module Examples.

Definition root : Path := mkPath true ["srv"; "singularity"].

Definition lines (l : list string) : string := Py.join (String Re.newline "") l.

(** A tree whose directory [platform/memory-service/erlang/src] has the
    entries [entries]. *)
Definition memory_tree (entries : list (string * node)) : node :=
  Dir [("platform", Dir [("memory-service", Dir [("erlang", Dir [("src", Dir entries)])])])].

Definition generator_of (r : result SmartTaskGenerator) : SmartTaskGenerator :=
  match r with
  | Ok generator => generator
  | Raise _ => mkSmartTaskGenerator (mkFactChecker (mkPath false []) []) (mkPath false [])
  end.

Definition report_of (r : result Report) : Report :=
  match r with
  | Ok report => report
  | Raise _ => mkReport [] [] 0
  end.

(** The scenario of the spec: [a.erl] has a TODO about consistent hashing
    at line 5, and no file declares a routine [consistent_hashing]. *)
Definition scenario_tree : node :=
  memory_tree [
    ("a.erl", File (lines [
       "-module(a).";
       "-export([start/0]).";
       "";
       "start() ->";
       "% TODO: implement consistent hashing ring";
       "    ok." ]));
    ("b.erl", File (lines [
       "-module(b).";
       "stop() -> ok." ]))
  ].

Definition scenario_generator : SmartTaskGenerator :=
  generator_of (SmartTaskGeneratorM.new root scenario_tree).

Definition scenario_report : Report :=
  report_of (SmartTaskGeneratorM.run root scenario_tree).

(** A generator built while the directory at [root] was still empty. *)
Definition early_generator : SmartTaskGenerator :=
  generator_of (SmartTaskGeneratorM.new root (Dir [])).

(** A file with a stub at line 1 and a TODO at line 2, written after
    [early_generator] was built. *)
Definition worker_tree : node :=
  memory_tree [
    ("worker.erl", File (lines [
       "handle(_) -> {error, not_implemented}.";
       "% TODO: gossip with the other shards" ]))
  ].

Definition worker_report : Report :=
  report_of (SmartTaskGeneratorM.generate_smart_tasks early_generator worker_tree).

(** A tree with TODO lines in three files with the suffix [.erl]: one in
    [memory_dir], one in a subdirectory of it and one elsewhere under the
    root. *)
Definition wide_tree : node :=
  Dir [
    ("lib", Dir [("c.erl", File "% TODO: wrap the NIF")]);
    ("platform", Dir [("memory-service", Dir [("erlang", Dir [("src", Dir [
       ("shard.erl", File "% TODO: rebalance");
       ("deep", Dir [("d.erl", File "% TODO: gossip")]) ])])])])
  ].

Definition wide_generator : SmartTaskGenerator :=
  generator_of (SmartTaskGeneratorM.new root wide_tree).

End Examples.

(** ** Notions used in the further properties *)

(** Every character of [s] satisfies [f]. *)
Fixpoint all_chars (f : ascii -> bool) (s : string) : bool :=
  match s with
  | EmptyString => true
  | String c s' => f c && all_chars f s'
  end.



(** A decimal digit. *)
Definition is_digit (c : ascii) : bool :=
  (48 <=? Py.code c) && (Py.code c <=? 57).


(** * Properties *)

(** ** Strings and paths *)

Lemma append_cons (a : ascii) (s t : string) :
  String a s +:+ t = String a (s +:+ t).
Proof. reflexivity. Qed.

Lemma append_nil_r (s : string) : s +:+ "" = s.
Proof. induction s as [|a s IH]; [done|]. by rewrite append_cons, IH. Qed.

Lemma append_assoc (s t u : string) : (s +:+ t) +:+ u = s +:+ (t +:+ u).
Proof. induction s as [|a s IH]; [done|]. by rewrite !append_cons, IH. Qed.

Lemma startswith_spec (p s : string) :
  Py.startswith p s = true <-> exists post, s = p +:+ post.
Proof.
  revert s. induction p as [|a p IH]; intros s; simpl.
  - split; [intros _; by exists s | done].
  - destruct s as [|b s].
    + split; [done | by intros [post ?]].
    + destruct (decide (a = b)) as [->|Hne].
      * rewrite IH. split; intros [post Hpost]; exists post.
        -- by rewrite append_cons, Hpost.
        -- rewrite append_cons in Hpost. by simplify_eq.
      * split; [done | intros [post Hpost]].
        rewrite append_cons in Hpost. by simplify_eq.
Qed.

Lemma contains_spec (sub s : string) :
  Py.contains sub s = true <-> exists pre post, s = pre +:+ sub +:+ post.
Proof.
  induction s as [|a s IH]; simpl.
  - rewrite orb_false_r, startswith_spec. split.
    + intros [post ->]. by exists "", post.
    + intros [[|b pre] [post Hs]]; [by exists post | done].
  - rewrite orb_true_iff, startswith_spec, IH. split.
    + intros [[post ->] | (pre & post & ->)].
      * by exists "", post.
      * by exists (String a pre), post.
    + intros [[|b pre] [post Hs]].
      * left. by exists post.
      * right. rewrite append_cons in Hs. simplify_eq. by exists pre, post.
Qed.

Lemma take_is_prefix (i : nat) (s : string) : exists suf, s = Py.take i s +:+ suf.
Proof.
  revert s. induction i as [|i IH]; intros s; [by exists s|].
  destruct s as [|a s]; simpl; [by exists ""|].
  destruct (IH s) as [suf Hsuf]. exists suf. by rewrite append_cons, <- Hsuf.
Qed.

Lemma stem_of_is_prefix (nm : string) : exists suf, nm = PathOps.stem_of nm +:+ suf.
Proof.
  unfold PathOps.stem_of. destruct (Py.rfind _ nm) as [i|].
  - destruct (_ && _); [apply take_is_prefix | exists ""; by rewrite append_nil_r].
  - exists "". by rewrite append_nil_r.
Qed.

Lemma join_snoc (sep : string) (l : list string) (x : string) :
  exists pre, Py.join sep (l ++ [x]) = pre +:+ x.
Proof.
  induction l as [|y l [pre IH]]; [by exists ""|].
  exists (y +:+ sep +:+ pre).
  change ((y :: l) ++ [x]) with (y :: (l ++ [x])).
  destruct (l ++ [x]) as [|z k] eqn:Hk; [by destruct l|].
  change (Py.join sep (y :: z :: k)) with (y +:+ sep +:+ Py.join sep (z :: k)).
  by rewrite IH, !append_assoc.
Qed.

Lemma name_joinpath (p : Path) (rel : list string) (nm : string) :
  PathOps.name (p // (rel ++ [nm])) = nm.
Proof.
  unfold PathOps.name, PathOps.joinpath; simpl.
  by rewrite app_assoc, last_last.
Qed.

Lemma str_joinpath_snoc (p : Path) (rel : list string) (nm : string) :
  exists pre, PathOps.str (p // (rel ++ [nm])) = pre +:+ nm.
Proof.
  unfold PathOps.str, PathOps.joinpath; simpl. rewrite app_assoc.
  destruct (join_snoc "/" (parts p ++ rel) nm) as [pre Hpre].
  destruct (absolute p).
  - exists ("/" +:+ pre). by rewrite Hpre, append_assoc.
  - destruct ((parts p ++ rel) ++ [nm]) eqn:Hk; [by destruct (parts p ++ rel)|].
    by exists pre.
Qed.

Lemma joinpath_joinpath (p : Path) (rel rel' : list string) :
  p // rel // rel' = p // (rel ++ rel').
Proof. unfold PathOps.joinpath; simpl. by rewrite app_assoc. Qed.

(** The stem of a file occurs in the text of its own path. *)
Lemma stem_in_own_path (p : Path) (rel : list string) (nm : string) :
  Py.contains (PathOps.stem (p // (rel ++ [nm]))) (PathOps.str (p // (rel ++ [nm]))) = true.
Proof.
  unfold PathOps.stem. rewrite name_joinpath.
  destruct (str_joinpath_snoc p rel nm) as [pre ->].
  destruct (stem_of_is_prefix nm) as [suf Hsuf].
  apply contains_spec. exists pre, suf. by rewrite <- Hsuf.
Qed.

(** ** The file system *)

Lemma entry_elem_of (nm : string) (entries : list (string * node)) (n : node) :
  FS.entry nm entries = Some n -> (nm, n) ∈ entries.
Proof.
  induction entries as [|[nm' n'] l IH]; simpl; [done|].
  destruct (decide (nm' = nm)) as [->|_]; intros H.
  - simplify_eq. apply list_elem_of_here.
  - apply list_elem_of_further. auto.
Qed.

Lemma resolve_reaches (rel : list string) (n target : node) :
  FS.resolve n rel = Some target -> FS.reaches n rel target.
Proof.
  revert n. induction rel as [|nm rel IH]; intros n; simpl.
  - congruence.
  - destruct n as [|entries]; [done|].
    destruct (FS.entry nm entries) as [sub|] eqn:Hsub; [|done].
    intros H. exists sub. split; [by apply entry_elem_of | by apply IH].
Qed.

Lemma elem_of_select (p : Path) (entries : list (string * node)) (q : Path) (n : node) :
  (q, n) ∈ FS.select p entries <->
  exists nm, q = p // [nm] /\ (nm, n) ∈ entries /\ FS.matches_erl nm = true.
Proof.
  unfold FS.select. rewrite list_elem_of_fmap. split.
  - intros ([nm n'] & Heq & Hin). apply list_elem_of_filter in Hin as [Hm Hin].
    simplify_eq. exists nm. split_and!; [done..|]. by apply Is_true_true.
  - intros (nm & -> & Hin & Hm). exists (nm, n). split; [done|].
    apply list_elem_of_filter. split; [by apply Is_true_true | done].
Qed.

(** What [rglob] yields below the entries of a directory contains what it
    yields in each of them. *)
Lemma rglob_entry (p : Path) (entries : list (string * node)) (nm : string) (sub : node) :
  (nm, sub) ∈ entries -> FS.rglob (p // [nm]) sub ⊆ FS.rglob p (Dir entries).
Proof.
  intros Hin x Hx. simpl. apply elem_of_app. right.
  induction entries as [|[nm' sub'] l IH]; [by apply elem_of_nil in Hin|].
  apply elem_of_app. apply elem_of_cons in Hin as [Heq|Hin].
  - simplify_eq. by left.
  - right. by apply IH.
Qed.

(** [rglob] reaches every directory of the tree and selects in it. *)
Lemma rglob_reaches (rel : list string) (p : Path) (n : node) (entries : list (string * node)) :
  FS.reaches n rel (Dir entries) ->
  FS.select (p // rel) entries ⊆ FS.rglob p n.
Proof.
  revert p n. induction rel as [|nm rel IH]; intros p n; simpl.
  - intros -> x Hx. simpl. apply elem_of_app. left.
    by replace (p // []) with p in Hx
      by (destruct p; unfold PathOps.joinpath; simpl; by rewrite app_nil_r).
  - destruct n as [|es]; [done|]. intros (sub & Hin & Hsub) x Hx.
    apply (rglob_entry p es nm sub Hin).
    apply (IH (p // [nm]) sub Hsub). by rewrite joinpath_joinpath.
Qed.

Lemma glob_subseteq_rglob (root : Path) (tree : node) (rel : list string) :
  FS.glob root tree rel ⊆ FS.rglob root tree.
Proof.
  unfold FS.glob. destruct (FS.resolve tree rel) as [[|entries]|] eqn:Hres;
    try (intros x Hx; by apply elem_of_nil in Hx).
  apply rglob_reaches. by apply resolve_reaches.
Qed.

Lemma elem_of_glob (root : Path) (tree : node) (rel : list string) (q : Path) (n : node) :
  (q, n) ∈ FS.glob root tree rel <->
  exists entries nm, FS.resolve tree rel = Some (Dir entries) /\
    q = root // (rel ++ [nm]) /\ (nm, n) ∈ entries /\ FS.matches_erl nm = true.
Proof.
  unfold FS.glob. split.
  - destruct (FS.resolve tree rel) as [[|entries]|];
      try (intros Hx; by apply elem_of_nil in Hx).
    intros (nm & -> & Hin & Hm)%elem_of_select.
    exists entries, nm. by rewrite joinpath_joinpath.
  - intros (entries & nm & -> & -> & Hin & Hm).
    apply elem_of_select. exists nm. by rewrite joinpath_joinpath.
Qed.

(** ** The FACT database *)

Lemma dict_set_keys {V} (k : string) (v : V) (d : list (string * V)) (k' : string) :
  k' ∈ Dict.keys (Dict.set k v d) <-> k' = k \/ k' ∈ Dict.keys d.
Proof.
  unfold Dict.keys. induction d as [|[k0 v0] d IH]; simpl.
  - rewrite list_elem_of_singleton. split; [auto|]. intros [?|H]; [done|].
    by apply elem_of_nil in H.
  - destruct (decide (k0 = k)) as [->|Hne]; simpl.
    + rewrite !elem_of_cons. tauto.
    + rewrite !elem_of_cons, IH. tauto.
Qed.

Lemma build_loop_keys (files : list (Path * node)) (db db' : list (string * FileData)) :
  FactCheckerM.build_loop files db = Ok db' ->
  forall k, k ∈ Dict.keys db' <-> k ∈ Dict.keys db \/ k ∈ (PathOps.str ∘ fst) <$> files.
Proof.
  revert db. induction files as [|[f n] files IH]; intros db; simpl.
  - intros [= ->] k. rewrite elem_of_nil. tauto.
  - destruct n as [content|]; [|done]. simpl. intros H k.
    rewrite (IH _ H), dict_set_keys, elem_of_cons. simpl. tauto.
Qed.


Lemma findings_foldl (fn mp : string) (db : list (string * FileData)) (acc : list Finding) :
  foldl (fun findings item => findings ++ FactCheckerM.findings_of fn mp item) acc db
  = acc ++ (db ≫= FactCheckerM.findings_of fn mp).
Proof.
  revert acc. induction db as [|item db IH]; intros acc.
  - simpl. by rewrite app_nil_r.
  - rewrite bind_cons, app_assoc. apply IH.
Qed.

Lemma check_findings (self : FactChecker) (fn mp : string) :
  findings (FactCheckerM.check_implementation_exists self fn mp)
  = code_database self ≫= FactCheckerM.findings_of fn mp.
Proof. unfold FactCheckerM.check_implementation_exists; simpl. apply findings_foldl. Qed.

Lemma check_recommendation (self : FactChecker) (fn mp : string) :
  recommendation (FactCheckerM.check_implementation_exists self fn mp)
  = if Py.truthy (findings (FactCheckerM.check_implementation_exists self fn mp))
    then "skip" else "implement".
Proof. reflexivity. Qed.

(** A file of the database whose path contains the module pattern gives a
    [similar_module] finding. *)
Lemma similar_module_finding (self : FactChecker) (fn mp k : string) :
  k ∈ Dict.keys (code_database self) -> Py.contains mp k = true ->
  mkFinding k "similar_module" (QArith_base.Qmake 7 10)
    ∈ findings (FactCheckerM.check_implementation_exists self fn mp).
Proof.
  intros Hk Hc. rewrite check_findings. unfold Dict.keys in Hk.
  apply list_elem_of_fmap in Hk as ([k' d] & -> & Hin).
  apply list_elem_of_bind. exists (k', d). split; [|done].
  unfold FactCheckerM.findings_of. simpl in *. rewrite Hc.
  apply elem_of_app. right. apply list_elem_of_here.
Qed.

(** ** The scan as a sequence of markers *)

Lemma scan_lines_spec (self : SmartTaskGenerator) (erl_file : Path)
    (test : string -> bool) (task_type content : string) (tasks : list Task) :
  SmartTaskGeneratorM.scan_lines self erl_file test task_type content tasks
  = tasks ++ omap (Scan.verify self) (Scan.markers_in test task_type erl_file content).
Proof.
  unfold SmartTaskGeneratorM.scan_lines, Scan.markers_in.
  generalize (Py.enumerate 1 (Py.split Re.newline content)) as l.
  intros l. revert tasks. induction l as [|[i line] l IH]; intros tasks.
  - simpl. by rewrite app_nil_r.
  - simpl foldl. rewrite IH, filter_cons. simpl. destruct (test line); simpl.
    + unfold Scan.verify at 2. simpl.
      destruct (SmartTaskGeneratorM._create_verified_task _ _ _ _ _); simpl; [|done].
      by rewrite <- app_assoc.
    + done.
Qed.

Lemma scan_files_spec (self : SmartTaskGenerator) (files : list (Path * node))
    (tasks : list Task) :
  SmartTaskGeneratorM.scan_files self files tasks
  = (texts ← Scan.read_all files;
     Ok (tasks ++ omap (Scan.verify self) (Scan.markers texts))).
Proof.
  revert tasks. induction files as [|[f n] files IH]; intros tasks; simpl.
  - by rewrite app_nil_r.
  - destruct n as [content|]; simpl; [|done].
    rewrite IH, !scan_lines_spec. destruct (Scan.read_all files) as [texts|]; simpl; [|done].
    unfold Scan.markers. rewrite bind_cons. unfold Scan.markers_of_file.
    by rewrite !omap_app, !app_assoc.
Qed.

(** [generate_smart_tasks] reads the files of [memory_dir], keeps the tasks of
    the markers that pass the FACT check, counts them and returns the first
    ten. *)
Lemma generate_smart_tasks_spec (self : SmartTaskGenerator) (tree : node) :
  SmartTaskGeneratorM.generate_smart_tasks self tree
  = (texts ← Scan.read_all
       (FS.glob (singularity_path self) tree SmartTaskGeneratorM.memory_dir);
     let survivors := omap (Scan.verify self) (Scan.markers texts) in
     Ok {| tasks := take 10 survivors;
           adrs := SmartTaskGeneratorM._generate_required_adrs;
           total_found := length survivors |}).
Proof.
  unfold SmartTaskGeneratorM.generate_smart_tasks. rewrite scan_files_spec.
  by destruct (Scan.read_all _).
Qed.

Lemma generate_smart_tasks_inv (self : SmartTaskGenerator) (tree : node) (report : Report) :
  SmartTaskGeneratorM.generate_smart_tasks self tree = Ok report ->
  exists texts,
    Scan.read_all (FS.glob (singularity_path self) tree SmartTaskGeneratorM.memory_dir)
      = Ok texts /\
    tasks report = take 10 (omap (Scan.verify self) (Scan.markers texts)) /\
    adrs report = SmartTaskGeneratorM._generate_required_adrs /\
    total_found report = length (omap (Scan.verify self) (Scan.markers texts)).
Proof.
  rewrite generate_smart_tasks_spec.
  destruct (Scan.read_all _) as [texts|]; simpl; [|done].
  intros [= <-]. by exists texts.
Qed.

Lemma read_all_inv (files : list (Path * node)) (texts : list (Path * string)) :
  Scan.read_all files = Ok texts ->
  files = (fun '(f, c) => (f, File c)) <$> texts.
Proof.
  revert texts. induction files as [|[f n] files IH]; intros texts; simpl.
  - by intros [= <-].
  - destruct n as [content|]; simpl; [|done].
    destruct (Scan.read_all files) as [texts'|] eqn:Hr; simpl; [|done].
    intros [= <-]. simpl. f_equal. by apply IH.
Qed.


Lemma elem_of_markers_in (test : string -> bool) (ty : string) (f : Path) (c : string) (m : Marker) :
  m ∈ Scan.markers_in test ty f c ->
  sourceFile m = f /\ kind m = ty /\ test (rawText m) = true
  /\ (lineNumber m, rawText m) ∈ Py.enumerate 1 (Py.split Re.newline c).
Proof.
  unfold Scan.markers_in. intros ([i line] & -> & [Ht Hin]%list_elem_of_filter)%list_elem_of_fmap.
  simpl in *. split_and!; [done..| by apply Is_true_true | done].
Qed.

Lemma elem_of_markers (texts : list (Path * string)) (m : Marker) :
  m ∈ Scan.markers texts ->
  exists c, (sourceFile m, c) ∈ texts /\
    ((kind m = "todo" /\ SmartTaskGeneratorM.is_todo (rawText m) = true) \/
     (kind m = "stub" /\ SmartTaskGeneratorM.is_stub (rawText m) = true)).
Proof.
  unfold Scan.markers. intros ([f c] & Hm & Hin)%list_elem_of_bind.
  unfold Scan.markers_of_file in Hm.
  apply elem_of_app in Hm as [Hm|Hm]; apply elem_of_markers_in in Hm as (<- & -> & Ht & _);
    exists c; auto.
Qed.

Lemma omap_all_None {A B} (f : A -> option B) (l : list A) :
  (forall x, x ∈ l -> f x = None) -> omap f l = [].
Proof.
  induction l as [|x l IH]; intros H; simpl; [done|].
  rewrite (H x) by apply list_elem_of_here. apply IH.
  intros y Hy. apply H. by apply list_elem_of_further.
Qed.

Lemma elem_of_take_omap {A B} (f : A -> option B) (l : list A) (n : nat) (y : B) :
  y ∈ take n (omap f l) -> exists x, x ∈ l /\ f x = Some y.
Proof. intros Hy. apply list_elem_of_omap. by eapply subseteq_take. Qed.

(** ** The FACT check decides *)

Lemma truthy_iff {A} (l : list A) : Py.truthy l = true <-> l <> [].
Proof. by destruct l. Qed.

Lemma create_None_iff (self : SmartTaskGenerator) (file_path : Path) (line_num : nat)
    (content task_type : string) :
  SmartTaskGeneratorM._create_verified_task self file_path line_num content task_type = None
  <-> findings (FactCheckerM.check_implementation_exists (fact_checker self)
                  (SmartTaskGeneratorM.extract_pattern content) (PathOps.stem file_path)) <> [].
Proof.
  unfold SmartTaskGeneratorM._create_verified_task. rewrite check_recommendation.
  destruct (findings _) as [|x l]; simpl; split; done.
Qed.

Lemma create_Some_fields (self : SmartTaskGenerator) (file_path : Path) (line_num : nat)
    (content ty : string) (t : Task) :
  SmartTaskGeneratorM._create_verified_task self file_path line_num content ty = Some t ->
  task_file t = PathOps.str file_path /\ task_line t = line_num /\ task_type t = ty
  /\ task_pattern t = SmartTaskGeneratorM.extract_pattern content
  /\ task_hours t = (if bool_decide (ty = "stub") then 3 else 2)
  /\ task_priority t = (if bool_decide (ty = "stub") then "high" else "medium").
Proof.
  unfold SmartTaskGeneratorM._create_verified_task.
  case_bool_decide; [done|]. by intros [= <-].
Qed.

(** C3: the verdict of [check_implementation_exists] has [exists] true
    exactly when [findings] is not empty and recommends [skip] exactly when
    [exists]; and a marker whose check of (topic, file stem) has a finding
    gets no task. *)
Theorem verdict_invariant_and_skip (self : SmartTaskGenerator)
    (function_name module_pattern : string)
    (file_path : Path) (line_num : nat) (content task_type : string) :
  let verdict :=
    FactCheckerM.check_implementation_exists (fact_checker self) function_name module_pattern in
  let marker_verdict :=
    FactCheckerM.check_implementation_exists (fact_checker self)
      (SmartTaskGeneratorM.extract_pattern content) (PathOps.stem file_path) in
  exists_ verdict = bool_decide (findings verdict <> [])
  /\ (recommendation verdict = "skip" <-> exists_ verdict = true)
  /\ (findings marker_verdict <> [] ->
      SmartTaskGeneratorM._create_verified_task self file_path line_num content task_type = None).
Proof.
  intros verdict marker_verdict. split_and!.
  - subst verdict. unfold FactCheckerM.check_implementation_exists. simpl.
    by destruct (foldl _ _ _) as [|x l].
  - subst verdict. unfold FactCheckerM.check_implementation_exists. simpl.
    by destruct (foldl _ _ _) as [|x l].
  - apply create_None_iff.
Qed.

Lemma verdict_invariant_and_skip_witness :
  findings (FactCheckerM.check_implementation_exists
              (fact_checker Examples.scenario_generator)
              (SmartTaskGeneratorM.extract_pattern "% TODO: implement consistent hashing ring")
              (PathOps.stem (Examples.root // (SmartTaskGeneratorM.memory_dir ++ ["a.erl"]))))
    <> []
  /\ SmartTaskGeneratorM._create_verified_task Examples.scenario_generator
       (Examples.root // (SmartTaskGeneratorM.memory_dir ++ ["a.erl"])) 5
       "% TODO: implement consistent hashing ring" "todo" = None.
Proof.
  split.
  - vm_compute. discriminate.
  - apply (verdict_invariant_and_skip Examples.scenario_generator "" "").
    vm_compute. discriminate.
Defined.

(** ** A run on one tree *)

Lemma new_inv (root : Path) (tree : node) (generator : SmartTaskGenerator) :
  SmartTaskGeneratorM.new root tree = Ok generator ->
  exists db, FactCheckerM.build_loop (FS.rglob root tree) [] = Ok db
    /\ generator = mkSmartTaskGenerator (mkFactChecker root db) root.
Proof.
  unfold SmartTaskGeneratorM.new, FactCheckerM.new, FactCheckerM._build_code_database.
  destruct (FactCheckerM.build_loop _ _) as [db|]; simpl; [|done].
  intros [= <-]. by exists db.
Qed.

(** Every file [rglob] yields is a key of the database built from it. *)
Lemma indexed (root : Path) (tree : node) (generator : SmartTaskGenerator)
    (f : Path) (n : node) :
  SmartTaskGeneratorM.new root tree = Ok generator ->
  (f, n) ∈ FS.rglob root tree ->
  PathOps.str f ∈ Dict.keys (code_database (fact_checker generator)).
Proof.
  intros (db & Hdb & ->)%new_inv Hin. simpl.
  apply (build_loop_keys _ _ _ Hdb). right.
  apply list_elem_of_fmap. by exists (f, n).
Qed.

Lemma run_inv (root : Path) (tree : node) (report : Report) :
  SmartTaskGeneratorM.run root tree = Ok report ->
  exists generator,
    SmartTaskGeneratorM.new root tree = Ok generator
    /\ SmartTaskGeneratorM.generate_smart_tasks generator tree = Ok report.
Proof.
  unfold SmartTaskGeneratorM.run.
  destruct (SmartTaskGeneratorM.new root tree) as [generator|]; simpl; [|done].
  intros Hgen. by exists generator.
Qed.


(** C1: in a run that builds the index and scans on the same tree, every
    scanned file is in the code database and its stem occurs in its own
    path; so every check has a [similar_module] finding and recommends
    [skip], every marker is dropped, [tasks] is empty and [total_found]
    is 0. *)
Theorem run_drops_every_marker (root : Path) (tree : node) (report : Report) :
  SmartTaskGeneratorM.run root tree = Ok report ->
  exists generator,
    SmartTaskGeneratorM.new root tree = Ok generator
    /\ (forall erl_file n line_num content task_type,
          (erl_file, n) ∈ FS.glob root tree SmartTaskGeneratorM.memory_dir ->
          let verdict :=
            FactCheckerM.check_implementation_exists (fact_checker generator)
              (SmartTaskGeneratorM.extract_pattern content) (PathOps.stem erl_file) in
          mkFinding (PathOps.str erl_file) "similar_module" (QArith_base.Qmake 7 10)
            ∈ findings verdict
          /\ recommendation verdict = "skip"
          /\ SmartTaskGeneratorM._create_verified_task generator erl_file line_num
               content task_type = None)
    /\ tasks report = []
    /\ total_found report = 0.
Proof.
  intros (generator & Hnew & Hgen)%run_inv. exists generator. split; [done|].
  assert (Hroot : singularity_path generator = root).
  { apply new_inv in Hnew as (db & _ & ->). done. }
  assert (Hdrop : forall erl_file n content,
            (erl_file, n) ∈ FS.glob root tree SmartTaskGeneratorM.memory_dir ->
            mkFinding (PathOps.str erl_file) "similar_module" (QArith_base.Qmake 7 10)
              ∈ findings (FactCheckerM.check_implementation_exists (fact_checker generator)
                            (SmartTaskGeneratorM.extract_pattern content)
                            (PathOps.stem erl_file))).
  { intros erl_file n content Hin. apply similar_module_finding.
    - apply (indexed root tree generator erl_file n Hnew).
      by apply (glob_subseteq_rglob root tree SmartTaskGeneratorM.memory_dir).
    - apply elem_of_glob in Hin as (entries & nm & _ & -> & _).
      apply stem_in_own_path. }
  assert (Hnone : forall erl_file n line_num content task_type,
            (erl_file, n) ∈ FS.glob root tree SmartTaskGeneratorM.memory_dir ->
            SmartTaskGeneratorM._create_verified_task generator erl_file line_num
              content task_type = None).
  { intros erl_file n line_num content task_type Hin. apply create_None_iff.
    intros Hnil. specialize (Hdrop erl_file n content Hin).
    rewrite Hnil in Hdrop. by apply elem_of_nil in Hdrop. }
  split.
  - intros erl_file n line_num content task_type Hin verdict. split_and!.
    + by apply (Hdrop erl_file n).
    + subst verdict. rewrite check_recommendation.
      specialize (Hdrop erl_file n content Hin).
      destruct (findings _); [by apply elem_of_nil in Hdrop | done].
    + by apply (Hnone erl_file n).
  - apply generate_smart_tasks_inv in Hgen as (texts & Hread & Htasks & _ & Htotal).
    rewrite Hroot in Hread. apply read_all_inv in Hread.
    assert (Hall : omap (Scan.verify generator) (Scan.markers texts) = []).
    { apply omap_all_None. intros m (c & Hc & _)%elem_of_markers.
      apply (Hnone (sourceFile m) (File c)). rewrite Hread.
      apply list_elem_of_fmap. by exists (sourceFile m, c). }
    rewrite Hall in Htasks, Htotal. by rewrite Htasks, Htotal.
Qed.

Lemma run_drops_every_marker_witness :
  tasks Examples.scenario_report = [] /\ total_found Examples.scenario_report = 0.
Proof.
  destruct (run_drops_every_marker Examples.root Examples.scenario_tree
              Examples.scenario_report) as (_ & _ & _ & Htasks & Htotal).
  - vm_compute. reflexivity.
  - by split.
Defined.

(** ** The cap and the count *)

(** C5: [tasks] has at most 10 entries, the first 10 of the tasks made
    before the cap, and [total_found] is the number of tasks made before
    the cap. *)
Theorem cap_and_total_found (self : SmartTaskGenerator) (tree : node) (report : Report) :
  SmartTaskGeneratorM.generate_smart_tasks self tree = Ok report ->
  length (tasks report) <= 10
  /\ exists texts,
       Scan.read_all (FS.glob (singularity_path self) tree SmartTaskGeneratorM.memory_dir)
         = Ok texts
       /\ tasks report = take 10 (omap (Scan.verify self) (Scan.markers texts))
       /\ total_found report = length (omap (Scan.verify self) (Scan.markers texts)).
Proof.
  intros (texts & Hread & Htasks & _ & Htotal)%generate_smart_tasks_inv. split.
  - rewrite Htasks, length_take. lia.
  - by exists texts.
Qed.

Lemma cap_and_total_found_witness :
  length (tasks Examples.worker_report) <= 10
  /\ exists texts,
       Scan.read_all (FS.glob (singularity_path Examples.early_generator)
                        Examples.worker_tree SmartTaskGeneratorM.memory_dir) = Ok texts
       /\ tasks Examples.worker_report
          = take 10 (omap (Scan.verify Examples.early_generator) (Scan.markers texts))
       /\ total_found Examples.worker_report
          = length (omap (Scan.verify Examples.early_generator) (Scan.markers texts)).
Proof.
  apply (cap_and_total_found Examples.early_generator Examples.worker_tree).
  vm_compute. reflexivity.
Defined.

(** The count is not the number of markers: the scenario has one marker and
    [total_found] 0. *)
Lemma total_found_is_not_the_marker_count :
  exists texts,
    Scan.read_all (FS.glob Examples.root Examples.scenario_tree
                     SmartTaskGeneratorM.memory_dir) = Ok texts
    /\ length (Scan.markers texts) = 1
    /\ total_found Examples.scenario_report = 0.
Proof. eexists. split; [reflexivity|]. split; vm_compute; reflexivity. Qed.

(** ** Tasks *)

(** C7: a task of kind [stub] has priority [high] and 3 hours; a task of
    kind [todo] has priority [medium] and 2 hours. *)
Theorem priority_mapping (self : SmartTaskGenerator) (file_path : Path) (line_num : nat)
    (content kind_of_task : string) (t : Task) :
  SmartTaskGeneratorM._create_verified_task self file_path line_num content kind_of_task
    = Some t ->
  task_type t = kind_of_task
  /\ (task_type t = "stub" -> task_priority t = "high" /\ task_hours t = 3)
  /\ (task_type t = "todo" -> task_priority t = "medium" /\ task_hours t = 2).
Proof.
  intros (_ & _ & Hty & _ & Hh & Hp)%create_Some_fields.
  rewrite Hty, Hh, Hp. split; [done|]. split; intros ->; done.
Qed.

Lemma priority_mapping_witness :
  exists t,
    SmartTaskGeneratorM._create_verified_task Examples.early_generator
      (Examples.root // (SmartTaskGeneratorM.memory_dir ++ ["worker.erl"])) 1
      "handle(_) -> {error, not_implemented}." "stub" = Some t
    /\ task_type t = "stub"
    /\ (task_type t = "stub" -> task_priority t = "high" /\ task_hours t = 3)
    /\ (task_type t = "todo" -> task_priority t = "medium" /\ task_hours t = 2).
Proof.
  eexists. split; [vm_compute; reflexivity|].
  eapply (priority_mapping Examples.early_generator
            (Examples.root // (SmartTaskGeneratorM.memory_dir ++ ["worker.erl"])) 1
            "handle(_) -> {error, not_implemented}." "stub").
  vm_compute. reflexivity.
Defined.

(** The tasks of a report are of kind [todo] or [stub] and follow the
    mapping. *)
Lemma report_priority_mapping (self : SmartTaskGenerator) (tree : node) (report : Report)
    (t : Task) :
  SmartTaskGeneratorM.generate_smart_tasks self tree = Ok report ->
  t ∈ tasks report ->
  (task_type t = "stub" /\ task_priority t = "high" /\ task_hours t = 3)
  \/ (task_type t = "todo" /\ task_priority t = "medium" /\ task_hours t = 2).
Proof.
  intros (texts & _ & Htasks & _)%generate_smart_tasks_inv Hin.
  rewrite Htasks in Hin. apply elem_of_take_omap in Hin as (m & Hm & Hv).
  apply create_Some_fields in Hv as (_ & _ & Hty & _ & Hh & Hp).
  apply elem_of_markers in Hm as (c & _ & [[Hk _]|[Hk _]]);
    rewrite Hk in *; rewrite Hty, Hh, Hp; auto.
Qed.

(** ** Topics *)

Lemma lower_append (s t : string) : Py.lower (s +:+ t) = Py.lower s +:+ Py.lower t.
Proof. induction s as [|a s IH]; [done|]. rewrite append_cons. simpl. by rewrite IH. Qed.

Lemma lower_append_inv (s a b : string) :
  Py.lower s = a +:+ b -> exists s1 s2, s = s1 +:+ s2 /\ Py.lower s1 = a /\ Py.lower s2 = b.
Proof.
  revert s. induction a as [|x a IH]; intros s Hs.
  - by exists "", s.
  - destruct s as [|c s]; [done|]. rewrite append_cons in Hs. simpl in Hs.
    injection Hs as Hc Hs. apply IH in Hs as (s1 & s2 & -> & <- & <-).
    exists (String c s1), s2. simpl. by rewrite Hc.
Qed.

(** The test of the source, [kw in content.lower()], finds the occurrences
    of [kw] in [content] up to case. *)
Lemma contains_lower (kw s : string) :
  Py.contains kw (Py.lower s) = true <-> Scan.contains_nocase kw s.
Proof.
  rewrite contains_spec. unfold Scan.contains_nocase. split.
  - intros (pre & post & Hs). apply lower_append_inv in Hs as (s1 & s' & -> & <- & Hs).
    apply lower_append_inv in Hs as (w & s2 & -> & <- & <-). by exists s1, w, s2.
  - intros (pre & w & post & -> & <-). exists (Py.lower pre), (Py.lower post).
    by rewrite !lower_append.
Qed.

(** C6: the topic of a marker is decided by the first of the keywords
    consistent, gossip, nif that its text contains up to case, and is general
    when it contains none; every text has exactly one topic, and it is the
    topic of the task made of the marker. *)
Theorem extract_pattern_first_match (content : string) :
  (Scan.contains_nocase "consistent" content ->
   SmartTaskGeneratorM.extract_pattern content = "consistent_hashing")
  /\ (~ Scan.contains_nocase "consistent" content ->
      Scan.contains_nocase "gossip" content ->
      SmartTaskGeneratorM.extract_pattern content = "gossip_protocol")
  /\ (~ Scan.contains_nocase "consistent" content ->
      ~ Scan.contains_nocase "gossip" content ->
      Scan.contains_nocase "nif" content ->
      SmartTaskGeneratorM.extract_pattern content = "rust_nif")
  /\ (~ Scan.contains_nocase "consistent" content ->
      ~ Scan.contains_nocase "gossip" content ->
      ~ Scan.contains_nocase "nif" content ->
      SmartTaskGeneratorM.extract_pattern content = "general")
  /\ SmartTaskGeneratorM.extract_pattern content
       ∈ ["consistent_hashing"; "gossip_protocol"; "rust_nif"; "general"]
  /\ (forall self file_path line_num task_type t,
        SmartTaskGeneratorM._create_verified_task self file_path line_num content task_type
          = Some t ->
        task_pattern t = SmartTaskGeneratorM.extract_pattern content).
Proof.
  unfold SmartTaskGeneratorM.extract_pattern. rewrite <- !contains_lower.
  destruct (Py.contains "consistent" _) eqn:H1;
    [|destruct (Py.contains "gossip" _) eqn:H2;
      [|destruct (Py.contains "nif" _) eqn:H3]];
    (split_and!; try done;
     [ repeat constructor
     | intros self file_path line_num task_type t Ht;
       apply create_Some_fields in Ht as (_ & _ & _ & Hpat & _);
       rewrite Hpat; unfold SmartTaskGeneratorM.extract_pattern;
       by rewrite ?H1, ?H2, ?H3 ]).
Qed.

Lemma extract_pattern_first_match_witness :
  SmartTaskGeneratorM.extract_pattern "%% todo: Gossip via NIF" = "gossip_protocol".
Proof.
  apply (extract_pattern_first_match "%% todo: Gossip via NIF").
  - intros H. apply contains_lower in H. vm_compute in H. discriminate.
  - apply contains_lower. vm_compute. reflexivity.
Defined.

(** ** Decision records *)

Lemma adr_templates_unknown (topic : string) :
  topic <> "supervision_strategy" -> topic <> "consistent_hashing" ->
  topic <> "rust_nif_integration" ->
  ADRGenerator.adr_templates !! topic = None.
Proof.
  intros H1 H2 H3. unfold ADRGenerator.adr_templates. simpl.
  rewrite !lookup_insert_ne by done. apply lookup_empty.
Qed.

(** C9: for a decision topic that is none of the three keys of the table,
    [generate_adr] returns the supervision-strategy template; it raises
    nothing. *)
Theorem generate_adr_unknown_topic (context : gmap string string) (topic : string) :
  context !! "pattern" = Some topic ->
  topic <> "supervision_strategy" -> topic <> "consistent_hashing" ->
  topic <> "rust_nif_integration" ->
  ADRGenerator.generate_adr context = ADRGenerator.supervision_strategy
  /\ ADRGenerator.generate_adr context
     = ADRGenerator.generate_adr {[ "pattern" := "supervision_strategy" ]}.
Proof.
  intros Hctx H1 H2 H3. unfold ADRGenerator.generate_adr at 1 2.
  rewrite Hctx. simpl. by rewrite adr_templates_unknown.
Qed.

Lemma generate_adr_unknown_topic_witness :
  ADRGenerator.generate_adr {[ "pattern" := "gossip_protocol" ]}
  = ADRGenerator.supervision_strategy.
Proof.
  apply (generate_adr_unknown_topic {[ "pattern" := "gossip_protocol" ]} "gossip_protocol");
    [reflexivity | discriminate..].
Defined.

(** A context without the key [pattern] asks for the topic [default], which
    is unknown as well. *)
Lemma generate_adr_no_topic (context : gmap string string) :
  context !! "pattern" = None ->
  ADRGenerator.generate_adr context = ADRGenerator.supervision_strategy.
Proof. intros Hctx. unfold ADRGenerator.generate_adr. by rewrite Hctx. Qed.

Lemma required_adrs_value :
  SmartTaskGeneratorM._generate_required_adrs
  = [ set_status (set_id ADRGenerator.supervision_strategy "ADR-001") "needs_approval";
      set_status (set_id ADRGenerator.consistent_hashing "ADR-002") "needs_approval";
      set_status (set_id ADRGenerator.rust_nif_integration "ADR-003") "needs_approval" ].
Proof. reflexivity. Qed.

(** C8: [adrs] has exactly the three records ADR-001, ADR-002, ADR-003 in
    that order; each has status [needs_approval], at least 2 options, and a
    decision that names exactly one of its options. *)
Theorem adrs_complete (self : SmartTaskGenerator) (tree : node) (report : Report) :
  SmartTaskGeneratorM.generate_smart_tasks self tree = Ok report ->
  length (adrs report) = 3
  /\ adr_id <$> adrs report = [Some "ADR-001"; Some "ADR-002"; Some "ADR-003"]
  /\ Forall (fun adr =>
               adr_status adr = Some "needs_approval"
               /\ 2 <= length (adr_options adr)
               /\ exists o, Scan.chosen_options adr = [o])
       (adrs report).
Proof.
  intros (texts & _ & _ & Hadrs & _)%generate_smart_tasks_inv.
  rewrite Hadrs, required_adrs_value. split_and!; [done..|].
  repeat constructor; simpl; try lia; by eexists.
Qed.

Lemma adrs_complete_witness :
  adr_id <$> adrs Examples.worker_report = [Some "ADR-001"; Some "ADR-002"; Some "ADR-003"].
Proof.
  apply (adrs_complete Examples.early_generator Examples.worker_tree).
  vm_compute. reflexivity.
Defined.

(** ** What is indexed and what is scanned *)

Lemma reaches_snoc (rel : list string) (nm : string) (tree n : node) :
  FS.reaches tree (rel ++ [nm]) n <->
  exists entries, FS.reaches tree rel (Dir entries) /\ (nm, n) ∈ entries.
Proof.
  revert tree. induction rel as [|d rel IH]; intros tree; simpl.
  - destruct tree as [|es].
    + split; [done | by intros (entries & ? & _)].
    + split.
      * intros (sub & Hin & ->). by exists es.
      * intros (entries & [= ->] & Hin). by exists n.
  - destruct tree as [|es]; [split; [done | by intros (entries & ? & _)]|].
    split.
    + intros (sub & Hin & (entries & Hr & Hn)%IH). exists entries. split; [|done].
      by exists sub.
    + intros (entries & (sub & Hin & Hr) & Hn). exists sub. split; [done|].
      apply IH. by exists entries.
Qed.

(** The markers of a scan come from the regular files that are entries of
    [memory_dir] itself and match [*.erl]. *)
Lemma marker_in_memory_dir (root : Path) (tree : node) (texts : list (Path * string))
    (m : Marker) :
  Scan.read_all (FS.glob root tree SmartTaskGeneratorM.memory_dir) = Ok texts ->
  m ∈ Scan.markers texts ->
  exists entries nm content,
    FS.resolve tree SmartTaskGeneratorM.memory_dir = Some (Dir entries)
    /\ (nm, File content) ∈ entries
    /\ FS.matches_erl nm = true
    /\ sourceFile m = root // (SmartTaskGeneratorM.memory_dir ++ [nm]).
Proof.
  intros Hread%read_all_inv (c & Hc & _)%elem_of_markers.
  assert (Hin : (sourceFile m, File c) ∈ FS.glob root tree SmartTaskGeneratorM.memory_dir).
  { rewrite Hread. apply list_elem_of_fmap. by exists (sourceFile m, c). }
  apply elem_of_glob in Hin as (entries & nm & Hres & Hsrc & Hent & Hm).
  by exists entries, nm, c.
Qed.

(** C10: the index holds every entry called [*.erl] at any depth under the
    root, while the markers, and so the tasks, come only from the files
    called [*.erl] that are entries of [platform/memory-service/erlang/src]
    itself. *)
Theorem scan_is_memory_dir_only (root : Path) (tree : node)
    (indexer self : SmartTaskGenerator) (report : Report) :
  SmartTaskGeneratorM.new root tree = Ok indexer ->
  SmartTaskGeneratorM.generate_smart_tasks self tree = Ok report ->
  (forall rel nm n,
     FS.reaches tree (rel ++ [nm]) n -> FS.matches_erl nm = true ->
     PathOps.str (root // (rel ++ [nm]))
       ∈ Dict.keys (code_database (fact_checker indexer)))
  /\ (exists texts,
        Scan.read_all
          (FS.glob (singularity_path self) tree SmartTaskGeneratorM.memory_dir) = Ok texts
        /\ forall m, m ∈ Scan.markers texts ->
             exists entries nm content,
               FS.resolve tree SmartTaskGeneratorM.memory_dir = Some (Dir entries)
               /\ (nm, File content) ∈ entries
               /\ FS.matches_erl nm = true
               /\ sourceFile m
                  = singularity_path self // (SmartTaskGeneratorM.memory_dir ++ [nm]))
  /\ (forall t, t ∈ tasks report ->
        exists entries nm content,
          FS.resolve tree SmartTaskGeneratorM.memory_dir = Some (Dir entries)
          /\ (nm, File content) ∈ entries
          /\ FS.matches_erl nm = true
          /\ task_file t
             = PathOps.str (singularity_path self // (SmartTaskGeneratorM.memory_dir ++ [nm]))).
Proof.
  intros Hnew (texts & Hread & Htasks & _)%generate_smart_tasks_inv. split_and!.
  - intros rel nm n (entries & Hr & Hin)%reaches_snoc Hm.
    apply (indexed root tree indexer _ n Hnew).
    apply (rglob_reaches rel root tree entries Hr).
    apply elem_of_select. exists nm. by rewrite joinpath_joinpath.
  - exists texts. split; [done|]. intros m Hm.
    by apply (marker_in_memory_dir _ tree texts).
  - intros t Ht. rewrite Htasks in Ht.
    apply elem_of_take_omap in Ht as (m & Hm & Hv).
    apply create_Some_fields in Hv as (Hfile & _).
    destruct (marker_in_memory_dir _ tree texts m Hread Hm)
      as (entries & nm & content & Hres & Hin & Hmatch & Hsrc).
    exists entries, nm, content. by rewrite Hfile, Hsrc.
Qed.

Lemma scan_is_memory_dir_only_witness :
  PathOps.str (Examples.root // (["lib"] ++ ["c.erl"]))
    ∈ Dict.keys (code_database (fact_checker Examples.wide_generator))
  /\ Forall (fun t =>
               exists entries nm content,
                 FS.resolve Examples.wide_tree SmartTaskGeneratorM.memory_dir
                   = Some (Dir entries)
                 /\ (nm, File content) ∈ entries
                 /\ FS.matches_erl nm = true
                 /\ task_file t
                    = PathOps.str (singularity_path Examples.early_generator
                                     // (SmartTaskGeneratorM.memory_dir ++ [nm])))
       (tasks (Examples.report_of
                 (SmartTaskGeneratorM.generate_smart_tasks
                    Examples.early_generator Examples.wide_tree))).
Proof.
  destruct (scan_is_memory_dir_only Examples.root Examples.wide_tree
              Examples.wide_generator Examples.early_generator
              (Examples.report_of
                 (SmartTaskGeneratorM.generate_smart_tasks
                    Examples.early_generator Examples.wide_tree)))
    as (Hindex & _ & Htasks).
  - vm_compute. reflexivity.
  - vm_compute. reflexivity.
  - split.
    + apply (Hindex ["lib"] "c.erl" (File "% TODO: wrap the NIF")).
      * apply resolve_reaches. reflexivity.
      * reflexivity.
    + apply Forall_forall. exact Htasks.
Defined.

(** In [wide_tree] the three files are indexed and only the entry of
    [memory_dir] is scanned. *)
Lemma wide_tree_indexed_and_scanned :
  (Dict.keys <$> FactCheckerM._build_code_database Examples.root Examples.wide_tree)
  = Ok [ "/srv/singularity/lib/c.erl";
         "/srv/singularity/platform/memory-service/erlang/src/shard.erl";
         "/srv/singularity/platform/memory-service/erlang/src/deep/d.erl" ]
  /\ ((fun texts => (fun m => (PathOps.str (sourceFile m), lineNumber m)) <$> Scan.markers texts)
        <$> Scan.read_all (FS.glob Examples.root Examples.wide_tree
                            SmartTaskGeneratorM.memory_dir))
     = Ok [ ("/srv/singularity/platform/memory-service/erlang/src/shard.erl", 1) ].
Proof. split; vm_compute; reflexivity. Qed.

(** ** The order of the markers and of the tasks *)

Lemma markers_in_ascending_from (test : string -> bool) (ty : string) (f : Path)
    (l : list string) (start : nat) :
  let ms := (fun '(i, line) => mkMarker f i line ty) <$>
              filter (fun il => Is_true (test il.2)) (Py.enumerate start l) in
  Scan.ascending lineNumber ms /\ Forall (fun m => start <= lineNumber m) ms.
Proof.
  revert start. induction l as [|line l IH]; intros start; simpl.
  - split; constructor.
  - destruct (IH (S start)) as [Hs Hall]. rewrite filter_cons. simpl.
    destruct (test line); simpl.
    + split.
      * constructor; [done|]. eapply Forall_impl; [exact Hall|]. simpl. lia.
      * constructor; [simpl; lia|]. eapply Forall_impl; [exact Hall|]. simpl. lia.
    + split; [done|]. eapply Forall_impl; [exact Hall|]. simpl. lia.
Qed.

Lemma markers_in_ascending (test : string -> bool) (ty : string) (f : Path) (c : string) :
  Scan.ascending lineNumber (Scan.markers_in test ty f c).
Proof. apply (markers_in_ascending_from test ty f _ 1). Qed.

Lemma omap_ascending {A B} (f : A -> option B) (ka : A -> nat) (kb : B -> nat) (l : list A) :
  (forall a b, f a = Some b -> kb b = ka a) ->
  Scan.ascending ka l -> Scan.ascending kb (omap f l).
Proof.
  intros Hkey. unfold Scan.ascending. induction 1 as [|a l Hs IH Hall]; simpl.
  - constructor.
  - destruct (f a) as [b|] eqn:Hb; [|done]. constructor; [done|].
    apply Forall_forall. intros b' (a' & Ha' & Hb')%list_elem_of_omap.
    rewrite (Hkey _ _ Hb), (Hkey _ _ Hb'). rewrite Forall_forall in Hall. by apply Hall.
Qed.

Lemma read_all_files (files : list (Path * node)) (texts : list (Path * string)) :
  Scan.read_all files = Ok texts -> texts.*1 = files.*1.
Proof.
  intros ->%read_all_inv. rewrite <- list_fmap_compose.
  apply list_fmap_ext. by intros _ [f c] _.
Qed.

(** C4, as the code has it: the files are scanned in the order in which
    [memory_dir] lists them; in each file the TODO markers come first, by
    ascending line number, and the stub markers after them, by ascending line
    number; the tasks returned are the first 10 tasks of the markers that
    pass the check, in that order. *)
Theorem tasks_in_scan_order (self : SmartTaskGenerator) (tree : node) (report : Report) :
  SmartTaskGeneratorM.generate_smart_tasks self tree = Ok report ->
  exists texts,
    Scan.read_all (FS.glob (singularity_path self) tree SmartTaskGeneratorM.memory_dir)
      = Ok texts
    /\ texts.*1 = (FS.glob (singularity_path self) tree SmartTaskGeneratorM.memory_dir).*1
    /\ Scan.markers texts
       = texts ≫= (fun '(f, c) =>
                     Scan.markers_in SmartTaskGeneratorM.is_todo "todo" f c
                     ++ Scan.markers_in SmartTaskGeneratorM.is_stub "stub" f c)
    /\ tasks report = take 10 (omap (Scan.verify self) (Scan.markers texts))
    /\ forall test ty f c,
         Forall (fun m => sourceFile m = f /\ kind m = ty) (Scan.markers_in test ty f c)
         /\ Scan.ascending lineNumber (Scan.markers_in test ty f c)
         /\ Scan.ascending task_line (omap (Scan.verify self) (Scan.markers_in test ty f c))
         /\ Forall (fun t => task_file t = PathOps.str f /\ task_type t = ty)
              (omap (Scan.verify self) (Scan.markers_in test ty f c)).
Proof.
  intros (texts & Hread & Htasks & _)%generate_smart_tasks_inv.
  exists texts. split_and!; [done | by apply read_all_files | done | done |].
  intros test ty f c. split_and!.
  - apply Forall_forall. intros m Hm. by apply elem_of_markers_in in Hm as (? & ? & _).
  - apply markers_in_ascending.
  - apply (omap_ascending _ lineNumber); [|apply markers_in_ascending].
    intros m t Hv. by apply create_Some_fields in Hv as (_ & ? & _).
  - apply Forall_forall. intros t (m & Hm & Hv)%list_elem_of_omap.
    apply elem_of_markers_in in Hm as (Hf & Hk & _).
    apply create_Some_fields in Hv as (Hfile & _ & Hty & _).
    by rewrite Hfile, Hty, Hf, Hk.
Qed.

Lemma tasks_in_scan_order_witness :
  exists texts,
    Scan.read_all (FS.glob (singularity_path Examples.early_generator)
                     Examples.worker_tree SmartTaskGeneratorM.memory_dir) = Ok texts
    /\ tasks Examples.worker_report
       = take 10 (omap (Scan.verify Examples.early_generator) (Scan.markers texts)).
Proof.
  destruct (tasks_in_scan_order Examples.early_generator Examples.worker_tree
              Examples.worker_report) as (texts & Hread & _ & _ & Htasks & _).
  - vm_compute. reflexivity.
  - by exists texts.
Defined.

Lemma string_compare_refl (s : string) : String.compare s s = Eq.
Proof.
  induction s as [|a s IH]; simpl; [done|].
  unfold Ascii.compare. by rewrite N.compare_refl.
Qed.

Lemma key_le_file_line (f : string) (i j : nat) : Scan.key_le (f, i) (f, j) -> i <= j.
Proof. unfold Scan.key_le. simpl. by rewrite string_compare_refl. Qed.

(** C4 fails as stated: in [worker.erl] the TODO of line 2 is processed, and
    its task returned, before the stub of line 1. *)
Lemma tasks_not_in_file_line_order :
  SmartTaskGeneratorM.new Examples.root (Dir []) = Ok Examples.early_generator
  /\ SmartTaskGeneratorM.generate_smart_tasks Examples.early_generator Examples.worker_tree
     = Ok Examples.worker_report
  /\ Scan.task_key <$> tasks Examples.worker_report
     = [ ("/srv/singularity/platform/memory-service/erlang/src/worker.erl", 2);
         ("/srv/singularity/platform/memory-service/erlang/src/worker.erl", 1) ]
  /\ ~ Scan.ordered Scan.task_key (tasks Examples.worker_report)
  /\ (exists texts,
        Scan.read_all (FS.glob Examples.root Examples.worker_tree
                         SmartTaskGeneratorM.memory_dir) = Ok texts
        /\ Scan.marker_key <$> Scan.markers texts
           = [ ("/srv/singularity/platform/memory-service/erlang/src/worker.erl", 2);
               ("/srv/singularity/platform/memory-service/erlang/src/worker.erl", 1) ]
        /\ ~ Scan.ordered Scan.marker_key (Scan.markers texts)).
Proof.
  split_and!; [vm_compute; reflexivity..| |].
  - intros Hord.
    destruct (tasks Examples.worker_report) as [|a [|b l]] eqn:Htasks;
      [vm_compute in Htasks; discriminate..|].
    specialize (Hord 0 1 a b Nat.lt_0_1 eq_refl eq_refl).
    assert (Ha : Scan.task_key a
                 = ("/srv/singularity/platform/memory-service/erlang/src/worker.erl", 2)).
    { vm_compute in Htasks. by injection Htasks as <- _. }
    assert (Hb : Scan.task_key b
                 = ("/srv/singularity/platform/memory-service/erlang/src/worker.erl", 1)).
    { vm_compute in Htasks. by injection Htasks as _ <- _. }
    rewrite Ha, Hb in Hord. apply key_le_file_line in Hord. lia.
  - eexists. split; [vm_compute; reflexivity|]. split; [vm_compute; reflexivity|].
    intros Hord. specialize (Hord 0 1 _ _ Nat.lt_0_1 eq_refl eq_refl).
    vm_compute in Hord. lia.
Qed.

(** ** The scenario of the spec *)


(** C2, on the code: in the scenario the one marker is the TODO of line 5
    of [a.erl], its topic is [consistent_hashing] and no indexed file declares
    a routine of that name; yet the check finds [a.erl] itself (and [b.erl])
    as a similar module, and the run returns no task.  With an index that
    does not hold these paths, the marker gives the task of the scenario. *)
Theorem scenario_yields_no_task :
  let a_erl := Examples.root // (SmartTaskGeneratorM.memory_dir ++ ["a.erl"]) in
  let todo := "% TODO: implement consistent hashing ring" in
  SmartTaskGeneratorM.run Examples.root Examples.scenario_tree = Ok Examples.scenario_report
  /\ tasks Examples.scenario_report = []
  /\ total_found Examples.scenario_report = 0
  /\ (Scan.markers <$>
        Scan.read_all (FS.glob Examples.root Examples.scenario_tree
                         SmartTaskGeneratorM.memory_dir))
     = Ok [mkMarker a_erl 5 todo "todo"]
  /\ SmartTaskGeneratorM.extract_pattern todo = "consistent_hashing"
  /\ Forall (fun item => "consistent_hashing" ∉ functions item.2)
       (code_database (fact_checker Examples.scenario_generator))
  /\ (fun f => (finding_file f, finding_type f)) <$>
       findings (FactCheckerM.check_implementation_exists
                   (fact_checker Examples.scenario_generator)
                   "consistent_hashing" (PathOps.stem a_erl))
     = [ ("/srv/singularity/platform/memory-service/erlang/src/a.erl", "similar_module");
         ("/srv/singularity/platform/memory-service/erlang/src/b.erl", "similar_module") ]
  /\ (fun t => (task_pattern t, task_type t, task_priority t, task_file t, task_line t)) <$>
       tasks (Examples.report_of
                (SmartTaskGeneratorM.generate_smart_tasks
                   Examples.early_generator Examples.scenario_tree))
     = [ ("consistent_hashing", "todo", "medium",
          "/srv/singularity/platform/memory-service/erlang/src/a.erl", 5) ].
Proof.
  intros a_erl todo. split_and!; try (vm_compute; reflexivity).
  apply (bool_decide_unpack _). vm_compute. exact I.
Qed.

(** * Further properties *)

(** ** The findings of a check *)

Lemma elem_of_findings (self : FactChecker) (function_name module_pattern : string)
    (f : Finding) :
  f ∈ findings (FactCheckerM.check_implementation_exists self function_name module_pattern)
  <-> exists k d,
        (k, d) ∈ code_database self
        /\ ((f = mkFinding k "function_exists" (QArith_base.Qmake 9 10)
             /\ function_name ∈ functions d)
            \/ (f = mkFinding k "similar_module" (QArith_base.Qmake 7 10)
                /\ Py.contains module_pattern k = true)).
Proof.
  rewrite check_findings, list_elem_of_bind. split.
  - intros ([k d] & Hf & Hin). exists k, d. split; [done|].
    unfold FactCheckerM.findings_of in Hf.
    apply elem_of_app in Hf as [Hf|Hf].
    + case_bool_decide; [|by apply elem_of_nil in Hf].
      apply list_elem_of_singleton in Hf. by left.
    + destruct (Py.contains module_pattern k) eqn:Hc; [|by apply elem_of_nil in Hf].
      apply list_elem_of_singleton in Hf. by right.
  - intros (k & d & Hin & Hf). exists (k, d). split; [|done].
    unfold FactCheckerM.findings_of. apply elem_of_app.
    destruct Hf as [[-> Hfn]|[-> Hc]].
    + left. rewrite bool_decide_eq_true_2 by done. apply list_elem_of_here.
    + right. rewrite Hc. apply list_elem_of_here.
Qed.


(** ** An index that finds nothing *)

Lemma create_Some_iff (self : SmartTaskGenerator) (file_path : Path) (line_num : nat)
    (content task_type : string) :
  (exists t, SmartTaskGeneratorM._create_verified_task self file_path line_num content
               task_type = Some t)
  <-> findings (FactCheckerM.check_implementation_exists (fact_checker self)
                  (SmartTaskGeneratorM.extract_pattern content) (PathOps.stem file_path)) = [].
Proof.
  destruct (SmartTaskGeneratorM._create_verified_task self file_path line_num content
              task_type) as [t|] eqn:Ht.
  - split; [|by exists t]. intros _.
    destruct (findings _) eqn:Hf; [done|].
    assert (Hn : SmartTaskGeneratorM._create_verified_task self file_path line_num content
                   task_type = None) by (apply create_None_iff; by rewrite Hf).
    congruence.
  - split; [by intros [t ?]|]. intros Hf. apply create_None_iff in Ht. by rewrite Hf in Ht.
Qed.

Lemma omap_all_Some {A B} (f : A -> option B) (l : list A) :
  (forall x, x ∈ l -> is_Some (f x)) -> Some <$> omap f l = f <$> l.
Proof.
  induction l as [|x l IH]; intros H; simpl; [done|].
  destruct (H x) as [y Hy]; [apply list_elem_of_here|]. rewrite Hy. simpl. f_equal.
  apply IH. intros z Hz. apply H. by apply list_elem_of_further.
Qed.

(** X3: with an empty code database every marker passes the check: the
    tasks returned are those of the first 10 markers, in order, and
    [total_found] is the number of markers. *)
Theorem empty_index_keeps_every_marker (self : SmartTaskGenerator) (tree : node)
    (report : Report) :
  code_database (fact_checker self) = [] ->
  SmartTaskGeneratorM.generate_smart_tasks self tree = Ok report ->
  exists texts,
    Scan.read_all (FS.glob (singularity_path self) tree SmartTaskGeneratorM.memory_dir)
      = Ok texts
    /\ total_found report = length (Scan.markers texts)
    /\ (fun t => (task_file t, task_line t, task_type t)) <$> tasks report
       = take 10 ((fun m => (PathOps.str (sourceFile m), lineNumber m, kind m))
                    <$> Scan.markers texts).
Proof.
  intros Hdb (texts & Hread & Htasks & _ & Htotal)%generate_smart_tasks_inv.
  exists texts. split; [done|].
  assert (Hall : forall m, m ∈ Scan.markers texts -> is_Some (Scan.verify self m)).
  { intros m _. unfold Scan.verify. apply create_Some_iff.
    rewrite check_findings, Hdb. done. }
  apply omap_all_Some in Hall.
  assert (Hlen : length (omap (Scan.verify self) (Scan.markers texts))
                 = length (Scan.markers texts)).
  { rewrite <- (length_fmap Some), Hall. apply length_fmap. }
  split; [by rewrite Htotal|].
  rewrite Htasks, fmap_take. f_equal.
  apply (inj (fmap Some)). rewrite <- !list_fmap_compose.
  transitivity ((fun o : option Task =>
                   (fun t => (task_file t, task_line t, task_type t)) <$> o)
                  <$> (Some <$> omap (Scan.verify self) (Scan.markers texts))).
  { by rewrite <- list_fmap_compose. }
  rewrite Hall, <- list_fmap_compose. apply list_fmap_ext. intros _ m _. simpl.
  unfold Scan.verify.
  destruct (SmartTaskGeneratorM._create_verified_task _ _ _ _ _) as [t|] eqn:Ht; simpl.
  - apply create_Some_fields in Ht as (-> & -> & -> & _). done.
  - apply create_None_iff in Ht. by rewrite check_findings, Hdb in Ht.
Qed.

Lemma empty_index_keeps_every_marker_witness :
  total_found Examples.worker_report = 2.
Proof.
  destruct (empty_index_keeps_every_marker Examples.early_generator Examples.worker_tree
              Examples.worker_report) as (texts & Hread & Htotal & _).
  - reflexivity.
  - vm_compute. reflexivity.
  - rewrite Htotal. vm_compute in Hread. injection Hread as <-. reflexivity.
Defined.

(** X9: a task is returned only for a marker the index finds nothing for:
    no indexed file declares a function named like the topic of the task, and
    the path of no indexed file contains the stem of the marker's file. *)
Theorem tasks_have_no_findings (self : SmartTaskGenerator) (tree : node) (report : Report)
    (t : Task) :
  SmartTaskGeneratorM.generate_smart_tasks self tree = Ok report ->
  t ∈ tasks report ->
  task_fact_verified t = true
  /\ exists m texts,
       Scan.read_all (FS.glob (singularity_path self) tree SmartTaskGeneratorM.memory_dir)
         = Ok texts
       /\ m ∈ Scan.markers texts
       /\ Scan.verify self m = Some t
       /\ task_file t = PathOps.str (sourceFile m)
       /\ forall k d, (k, d) ∈ code_database (fact_checker self) ->
            (task_pattern t ∉ functions d)
            /\ Py.contains (PathOps.stem (sourceFile m)) k = false.
Proof.
  intros (texts & Hread & Htasks & _)%generate_smart_tasks_inv Ht.
  rewrite Htasks in Ht. apply elem_of_take_omap in Ht as (m & Hm & Hv).
  assert (Hnone : findings (FactCheckerM.check_implementation_exists (fact_checker self)
                              (SmartTaskGeneratorM.extract_pattern (rawText m))
                              (PathOps.stem (sourceFile m))) = []).
  { apply (proj1 (create_Some_iff self (sourceFile m) (lineNumber m) (rawText m) (kind m))).
    by exists t. }
  pose proof Hv as Hfields. apply create_Some_fields in Hfields as (Hfile & _ & _ & Hpat & _).
  split.
  { unfold Scan.verify, SmartTaskGeneratorM._create_verified_task in Hv.
    case_bool_decide; [done|]. by injection Hv as <-. }
  exists m, texts. split_and!; [done..|].
  intros k d Hin. rewrite Hpat. split.
  - intros Hfn.
    assert (Hf : mkFinding k "function_exists" (QArith_base.Qmake 9 10)
                 ∈ findings (FactCheckerM.check_implementation_exists (fact_checker self)
                               (SmartTaskGeneratorM.extract_pattern (rawText m))
                               (PathOps.stem (sourceFile m)))).
    { apply elem_of_findings. exists k, d. split; [done|]. by left. }
    rewrite Hnone in Hf. by apply elem_of_nil in Hf.
  - destruct (Py.contains _ k) eqn:Hc; [|done].
    assert (Hf : mkFinding k "similar_module" (QArith_base.Qmake 7 10)
                 ∈ findings (FactCheckerM.check_implementation_exists (fact_checker self)
                               (SmartTaskGeneratorM.extract_pattern (rawText m))
                               (PathOps.stem (sourceFile m)))).
    { apply elem_of_findings. exists k, d. split; [done|]. by right. }
    rewrite Hnone in Hf. by apply elem_of_nil in Hf.
Qed.

Lemma tasks_have_no_findings_witness :
  Forall (fun t => task_fact_verified t = true) (tasks Examples.worker_report).
Proof.
  apply Forall_forall. intros t Ht.
  by destruct (tasks_have_no_findings Examples.early_generator Examples.worker_tree
                 Examples.worker_report t eq_refl Ht) as [? _].
Defined.

(** X10: a task does not depend on the index beyond passing its check, and
    a larger index passes fewer markers: a marker that gives a task under an
    index gives the same task under every index with fewer items. *)
Theorem smaller_index_keeps_task (self self' : SmartTaskGenerator) (file_path : Path)
    (line_num : nat) (content task_type : string) (t : Task) :
  code_database (fact_checker self) ⊆ code_database (fact_checker self') ->
  SmartTaskGeneratorM._create_verified_task self' file_path line_num content task_type
    = Some t ->
  SmartTaskGeneratorM._create_verified_task self file_path line_num content task_type
    = Some t.
Proof.
  intros Hsub Ht.
  assert (Hnil' : findings (FactCheckerM.check_implementation_exists (fact_checker self')
                              (SmartTaskGeneratorM.extract_pattern content)
                              (PathOps.stem file_path)) = []).
  { apply (proj1 (create_Some_iff self' file_path line_num content task_type)).
    by exists t. }
  assert (Hnil : findings (FactCheckerM.check_implementation_exists (fact_checker self)
                             (SmartTaskGeneratorM.extract_pattern content)
                             (PathOps.stem file_path)) = []).
  { destruct (findings (FactCheckerM.check_implementation_exists (fact_checker self) _ _))
      as [|f l] eqn:Hf; [done|].
    assert (Hin : f ∈ findings (FactCheckerM.check_implementation_exists (fact_checker self)
                                  (SmartTaskGeneratorM.extract_pattern content)
                                  (PathOps.stem file_path)))
      by (rewrite Hf; apply list_elem_of_here).
    apply elem_of_findings in Hin as (k & d & Hkd & Hcase).
    assert (Hin' : f ∈ findings (FactCheckerM.check_implementation_exists
                                   (fact_checker self')
                                   (SmartTaskGeneratorM.extract_pattern content)
                                   (PathOps.stem file_path))).
    { apply elem_of_findings. exists k, d. split; [by apply Hsub | done]. }
    rewrite Hnil' in Hin'. by apply elem_of_nil in Hin'. }
  revert Ht. unfold SmartTaskGeneratorM._create_verified_task.
  rewrite !check_recommendation, Hnil, Hnil'. done.
Qed.

Lemma smaller_index_keeps_task_witness :
  exists t,
    SmartTaskGeneratorM._create_verified_task Examples.early_generator
      (Examples.root // ["notes.erl"]) 7 "% TODO: gossip" "todo" = Some t.
Proof.
  eexists.
  apply (smaller_index_keeps_task Examples.early_generator Examples.scenario_generator).
  - intros x Hx. vm_compute in Hx. by apply elem_of_nil in Hx.
  - vm_compute. reflexivity.
Defined.

(** ** The code database and the exceptions of a run *)

Lemma dict_set_NoDup {V} (k : string) (v : V) (d : list (string * V)) :
  NoDup (Dict.keys d) -> NoDup (Dict.keys (Dict.set k v d)).
Proof.
  unfold Dict.keys. induction d as [|[k0 v0] d IH]; simpl.
  - intros _. apply NoDup_singleton.
  - intros [Hnotin Hnd]%NoDup_cons. destruct (decide (k0 = k)) as [->|Hne]; simpl.
    + by apply NoDup_cons.
    + apply NoDup_cons. split; [|by apply IH].
      intros [?|?]%(dict_set_keys k v d k0); [done|]. by apply Hnotin.
Qed.

Lemma dict_set_item {V} (k : string) (v : V) (d : list (string * V)) (k' : string) (v' : V) :
  (k', v') ∈ Dict.set k v d -> (k', v') = (k, v) \/ (k', v') ∈ d.
Proof.
  induction d as [|[k0 v0] d IH]; simpl.
  - intros ->%list_elem_of_singleton. by left.
  - destruct (decide (k0 = k)) as [->|Hne].
    + intros [?|?]%elem_of_cons; [by left | right; by apply list_elem_of_further].
    + intros [?|[?|?]%IH]%elem_of_cons.
      * right. simplify_eq. apply list_elem_of_here.
      * by left.
      * right. by apply list_elem_of_further.
Qed.

Lemma build_loop_invariant (files : list (Path * node)) (db db' : list (string * FileData)) :
  FactCheckerM.build_loop files db = Ok db' ->
  (NoDup (Dict.keys db) -> NoDup (Dict.keys db'))
  /\ forall k d, (k, d) ∈ db' ->
       (k, d) ∈ db
       \/ exists f content, (f, File content) ∈ files /\ PathOps.str f = k
                            /\ d = FactCheckerM.analyse content.
Proof.
  revert db. induction files as [|[f n] files IH]; intros db; simpl.
  - intros [= ->]. split; [done|]. by left.
  - destruct n as [content|]; [|done]. simpl. intros [Hnd Hitems]%IH. split.
    + intros H. by apply Hnd, dict_set_NoDup.
    + intros k d [[[= -> ->]|Hin]%dict_set_item|(f' & c' & Hin & Hk & Hd)]%Hitems.
      * right. exists f, content. split; [apply list_elem_of_here | done].
      * by left.
      * right. exists f', c'. split; [by apply list_elem_of_further | done].
Qed.

(** X4: the code database of a checker that was built has exactly one item
    for the path of every entry called [*.erl] at any depth under the root,
    each item holding the analysis of the text of a file of that path. *)
Theorem code_database_items (root : Path) (tree : node) (fc : FactChecker) :
  FactCheckerM.new root tree = Ok fc ->
  fc_singularity_path fc = root
  /\ NoDup (Dict.keys (code_database fc))
  /\ (forall k, k ∈ Dict.keys (code_database fc)
                <-> exists f n, (f, n) ∈ FS.rglob root tree /\ PathOps.str f = k)
  /\ (forall k d, (k, d) ∈ code_database fc ->
        exists f content, (f, File content) ∈ FS.rglob root tree /\ PathOps.str f = k
                          /\ d = FactCheckerM.analyse content).
Proof.
  unfold FactCheckerM.new, FactCheckerM._build_code_database.
  destruct (FactCheckerM.build_loop _ _) as [db|] eqn:Hdb; simpl; [|done].
  intros [= <-]. simpl. split; [done|].
  destruct (build_loop_invariant _ _ _ Hdb) as [Hnd Hitems]. split_and!.
  - apply Hnd. apply NoDup_nil_2.
  - intros k. rewrite (build_loop_keys _ _ _ Hdb k), list_elem_of_fmap. split.
    + intros [H|([f n] & -> & Hin)]; [by apply elem_of_nil in H|]. by exists f, n.
    + intros (f & n & Hin & <-). right. by exists (f, n).
  - intros k d [H|H]%Hitems; [by apply elem_of_nil in H | done].
Qed.

Lemma code_database_items_witness :
  NoDup (Dict.keys (code_database (fact_checker Examples.wide_generator))).
Proof.
  by destruct (code_database_items Examples.root Examples.wide_tree
                 (fact_checker Examples.wide_generator) eq_refl) as (_ & ? & _).
Defined.



(** ** What the regular expressions extract *)


Lemma length_append (s t : string) :
  String.length (s +:+ t) = String.length s + String.length t.
Proof. induction s as [|a s IH]; [done|]. rewrite append_cons. simpl. by rewrite IH. Qed.









(** ** The ids of tasks *)

Lemma to_uint_nonnil (n : nat) : Nat.to_uint n <> Decimal.Nil.
Proof.
  rewrite <- (DecimalNat.Unsigned.of_to n), DecimalNat.Unsigned.to_of.
  apply DecimalFacts.unorm_nonnil.
Qed.

Lemma str_of_nat_NilEmpty (n : nat) :
  Py.str_of_nat n = NilEmpty.string_of_uint (Nat.to_uint n).
Proof.
  unfold Py.str_of_nat, NilZero.string_of_uint.
  pose proof (to_uint_nonnil n). by destruct (Nat.to_uint n).
Qed.

Lemma str_of_nat_inj (a b : nat) : Py.str_of_nat a = Py.str_of_nat b -> a = b.
Proof.
  rewrite !str_of_nat_NilEmpty. intros H. apply DecimalNat.Unsigned.to_uint_inj.
  apply (f_equal NilEmpty.uint_of_string) in H. rewrite !NilEmpty.usu in H. congruence.
Qed.

Lemma str_of_nat_digits (n : nat) : all_chars is_digit (Py.str_of_nat n) = true.
Proof.
  rewrite str_of_nat_NilEmpty. induction (Nat.to_uint n) as [|d IH|d IH|d IH|d IH|d IH|d IH
    |d IH|d IH|d IH|d IH]; simpl; by rewrite ?IH.
Qed.

(** Two texts of digits, each followed by a colon, agree only if the digits
    and what follows the colons agree. *)
Lemma digits_colon_inj (d1 d2 r1 r2 : string) :
  all_chars is_digit d1 = true -> all_chars is_digit d2 = true ->
  d1 +:+ ":" +:+ r1 = d2 +:+ ":" +:+ r2 -> d1 = d2 /\ r1 = r2.
Proof.
  revert d2. induction d1 as [|a d1 IH]; intros [|b d2]; simpl;
    cbv beta iota delta [String.append]; fold String.append.
  - intros _ _ H. by simplify_eq.
  - intros _ [Hb _]%andb_true_iff H. by simplify_eq.
  - intros [Ha _]%andb_true_iff _ H. by simplify_eq.
  - intros [_ H1]%andb_true_iff [_ H2]%andb_true_iff H.
    injection H as -> H. by destruct (IH d2 H1 H2 H) as [-> ->].
Qed.

Lemma create_Some_id (self : SmartTaskGenerator) (file_path : Path) (line_num : nat)
    (content ty : string) (t : Task) :
  SmartTaskGeneratorM._create_verified_task self file_path line_num content ty = Some t ->
  task_id t = "SMART-" +:+ Py.str_of_nat (String.length (PathOps.str file_path))
              +:+ ":" +:+ Py.str_of_nat line_num.
Proof.
  unfold SmartTaskGeneratorM._create_verified_task.
  case_bool_decide; [done|]. by intros [= <-].
Qed.

(** X1: the id of a task is made of the length of the path of its file and
    of its line number only: two tasks have the same id exactly when their
    files have paths of the same length and their line numbers agree,
    whatever the files, the texts and the kinds. *)
Theorem task_ids_collide_iff (self1 self2 : SmartTaskGenerator) (f1 f2 : Path) (i1 i2 : nat)
    (c1 c2 ty1 ty2 : string) (t1 t2 : Task) :
  SmartTaskGeneratorM._create_verified_task self1 f1 i1 c1 ty1 = Some t1 ->
  SmartTaskGeneratorM._create_verified_task self2 f2 i2 c2 ty2 = Some t2 ->
  task_id t1 = task_id t2
  <-> String.length (PathOps.str f1) = String.length (PathOps.str f2) /\ i1 = i2.
Proof.
  intros ->%create_Some_id ->%create_Some_id. split.
  - intros H. apply (inj (String.app "SMART-")) in H.
    apply digits_colon_inj in H as [H1 H2]; [|apply str_of_nat_digits..].
    split; by apply str_of_nat_inj.
  - by intros [-> ->].
Qed.

Lemma task_ids_collide_iff_witness :
  exists t1 t2,
    SmartTaskGeneratorM._create_verified_task Examples.early_generator
      (Examples.root // ["ring.erl"]) 3 "% TODO: consistent hashing" "todo" = Some t1
    /\ SmartTaskGeneratorM._create_verified_task Examples.early_generator
         (Examples.root // ["peer.erl"]) 3 "{error, not_implemented}" "stub" = Some t2
    /\ task_id t1 = task_id t2.
Proof.
  eexists _, _. split; [vm_compute; reflexivity|]. split; [vm_compute; reflexivity|].
  apply (task_ids_collide_iff Examples.early_generator Examples.early_generator
           (Examples.root // ["ring.erl"]) (Examples.root // ["peer.erl"]) 3 3
           "% TODO: consistent hashing" "{error, not_implemented}" "todo" "stub").
  - vm_compute. reflexivity.
  - vm_compute. reflexivity.
  - split; reflexivity.
Defined.


(** ** The research note of a task *)

Lemma extract_pattern_cases (content : string) :
  SmartTaskGeneratorM.extract_pattern content = "consistent_hashing"
  \/ SmartTaskGeneratorM.extract_pattern content = "gossip_protocol"
  \/ SmartTaskGeneratorM.extract_pattern content = "rust_nif"
  \/ SmartTaskGeneratorM.extract_pattern content = "general".
Proof.
  unfold SmartTaskGeneratorM.extract_pattern.
  destruct (Py.contains "consistent" _); [auto|].
  destruct (Py.contains "gossip" _); [auto|].
  destruct (Py.contains "nif" _); auto.
Qed.

Lemma create_Some_research (self : SmartTaskGenerator) (file_path : Path) (line_num : nat)
    (content ty : string) (t : Task) :
  SmartTaskGeneratorM._create_verified_task self file_path line_num content ty = Some t ->
  task_research t
  = ResearchEngine.research_erlang_pattern (SmartTaskGeneratorM.extract_pattern content)
  /\ task_implementation_notes t
     = default (PStr "") (task_research t !! "recommendation").
Proof.
  unfold SmartTaskGeneratorM._create_verified_task.
  case_bool_decide; [done|]. by intros [= <-].
Qed.

(** X8: the research note of every task has a recommendation, a non-empty
    string, which is also its implementation notes (the default [''] of the
    lookup is never used); a task of topic [general] carries the generated
    note, since the knowledge base has no entry for it, and no task carries
    the entry [supervision] of the knowledge base. *)
Theorem task_research_note (self : SmartTaskGenerator) (file_path : Path) (line_num : nat)
    (content ty : string) (t : Task) :
  SmartTaskGeneratorM._create_verified_task self file_path line_num content ty = Some t ->
  (exists s, task_research t !! "recommendation" = Some (PStr s)
             /\ task_implementation_notes t = PStr s /\ s <> "")
  /\ (task_pattern t = "general" ->
      task_research t
      = {[ "recommendation" := PStr "Research general patterns in Erlang/OTP documentation" ]})
  /\ Some (task_research t) <> ResearchEngine.patterns_db !! "supervision".
Proof.
  intros Ht. pose proof Ht as (_ & _ & _ & Hpat & _)%create_Some_fields.
  apply create_Some_research in Ht as [Hres Hnotes].
  rewrite Hnotes, Hres, Hpat.
  destruct (extract_pattern_cases content) as [-> | [-> | [-> | ->]]];
    (split; [|split];
     [ eexists; split; [vm_compute; reflexivity|];
       split; [vm_compute; reflexivity | intros [=]]
     | first [intros _; vm_compute; reflexivity | intros [=]]
     | intros H;
       apply (f_equal (fun o => o ≫= (fun m : gmap string pyval => m !! "strategies"))) in H;
       vm_compute in H; discriminate H ]).
Qed.

Lemma task_research_note_witness :
  exists t,
    SmartTaskGeneratorM._create_verified_task Examples.early_generator
      (Examples.root // ["ring.erl"]) 3 "% TODO: tidy up" "todo" = Some t
    /\ task_research t
       = {[ "recommendation" := PStr "Research general patterns in Erlang/OTP documentation" ]}.
Proof.
  eexists. split; [vm_compute; reflexivity|].
  eapply (task_research_note Examples.early_generator (Examples.root // ["ring.erl"]) 3
            "% TODO: tidy up" "todo").
  - vm_compute. reflexivity.
  - reflexivity.
Defined.

(** ** How many markers and tasks *)

Lemma length_enumerate {A} (start : nat) (l : list A) :
  length (Py.enumerate start l) = length l.
Proof. revert start. induction l as [|x l IH]; intros start; simpl; [done|]. by rewrite IH. Qed.

Lemma length_markers_in (test : string -> bool) (ty : string) (f : Path) (c : string) :
  length (Scan.markers_in test ty f c) <= length (Py.split Re.newline c).
Proof.
  unfold Scan.markers_in. rewrite length_fmap.
  etrans; [apply length_filter|]. by rewrite length_enumerate.
Qed.

Lemma elem_of_markers_in_iff (test : string -> bool) (ty : string) (f : Path) (c : string)
    (i : nat) (line : string) :
  mkMarker f i line ty ∈ Scan.markers_in test ty f c
  <-> (i, line) ∈ Py.enumerate 1 (Py.split Re.newline c) /\ test line = true.
Proof.
  unfold Scan.markers_in. rewrite list_elem_of_fmap. split.
  - intros ([i' line'] & [= -> ->] & [Ht Hin]%list_elem_of_filter).
    split; [done | by apply Is_true_true].
  - intros [Hin Ht]. exists (i, line). split; [done|].
    apply list_elem_of_filter. split; [by apply Is_true_true | done].
Qed.

(** X11: the two loops over a file are independent: a line that has a TODO
    and a stub pattern gives two markers, the todo one and the stub one, and
    the tasks made of them have the same id; so a file gives at most twice
    as many markers as it has lines. *)
Theorem line_with_both_patterns (self : SmartTaskGenerator) (erl_file : Path)
    (content : string) (i : nat) (line : string) :
  (i, line) ∈ Py.enumerate 1 (Py.split Re.newline content) ->
  SmartTaskGeneratorM.is_todo line = true ->
  SmartTaskGeneratorM.is_stub line = true ->
  mkMarker erl_file i line "todo" ∈ Scan.markers_of_file erl_file content
  /\ mkMarker erl_file i line "stub" ∈ Scan.markers_of_file erl_file content
  /\ (forall t1 t2,
        Scan.verify self (mkMarker erl_file i line "todo") = Some t1 ->
        Scan.verify self (mkMarker erl_file i line "stub") = Some t2 ->
        task_id t1 = task_id t2 /\ task_priority t1 <> task_priority t2)
  /\ length (Scan.markers_of_file erl_file content)
     <= 2 * length (Py.split Re.newline content).
Proof.
  intros Hin Htodo Hstub. unfold Scan.markers_of_file. split_and!.
  - apply elem_of_app. left. by apply elem_of_markers_in_iff.
  - apply elem_of_app. right. by apply elem_of_markers_in_iff.
  - unfold Scan.verify. simpl. intros t1 t2 H1 H2.
    rewrite (create_Some_id _ _ _ _ _ _ H1), (create_Some_id _ _ _ _ _ _ H2).
    apply create_Some_fields in H1 as (_ & _ & _ & _ & _ & ->).
    apply create_Some_fields in H2 as (_ & _ & _ & _ & _ & ->). done.
  - rewrite length_app.
    pose proof (length_markers_in SmartTaskGeneratorM.is_todo "todo" erl_file content).
    pose proof (length_markers_in SmartTaskGeneratorM.is_stub "stub" erl_file content).
    lia.
Qed.

Lemma line_with_both_patterns_witness :
  mkMarker (Examples.root // ["w.erl"]) 1
    "{error, not_implemented}. % TODO: gossip" "todo"
    ∈ Scan.markers_of_file (Examples.root // ["w.erl"])
        "{error, not_implemented}. % TODO: gossip"
  /\ mkMarker (Examples.root // ["w.erl"]) 1
       "{error, not_implemented}. % TODO: gossip" "stub"
       ∈ Scan.markers_of_file (Examples.root // ["w.erl"])
           "{error, not_implemented}. % TODO: gossip".
Proof.
  destruct (line_with_both_patterns Examples.early_generator (Examples.root // ["w.erl"])
              "{error, not_implemented}. % TODO: gossip" 1
              "{error, not_implemented}. % TODO: gossip") as (H1 & H2 & _).
  - vm_compute. apply list_elem_of_here.
  - reflexivity.
  - reflexivity.
  - by split.
Defined.

Lemma length_omap_le {A B} (f : A -> option B) (l : list A) :
  length (omap f l) <= length l.
Proof. induction l as [|x l IH]; csimpl; [done|]. destruct (f x); csimpl; lia. Qed.

Lemma length_markers (texts : list (Path * string)) :
  length (Scan.markers texts)
  <= 2 * sum_list ((fun tc => length (Py.split Re.newline tc.2)) <$> texts).
Proof.
  unfold Scan.markers. induction texts as [|[f c] texts IH]; [done|].
  rewrite bind_cons, length_app, fmap_cons. simpl sum_list.
  unfold Scan.markers_of_file at 1. rewrite length_app.
  pose proof (length_markers_in SmartTaskGeneratorM.is_todo "todo" f c).
  pose proof (length_markers_in SmartTaskGeneratorM.is_stub "stub" f c).
  simpl in *. lia.
Qed.

(** X12: the report is consistent: [tasks] has [min(10, total_found)]
    entries, [total_found] is at most the number of markers, and that is at
    most twice the number of lines of the files scanned. *)
Theorem report_counts (self : SmartTaskGenerator) (tree : node) (report : Report) :
  SmartTaskGeneratorM.generate_smart_tasks self tree = Ok report ->
  length (tasks report) = total_found report `min` 10
  /\ exists texts,
       Scan.read_all (FS.glob (singularity_path self) tree SmartTaskGeneratorM.memory_dir)
         = Ok texts
       /\ total_found report <= length (Scan.markers texts)
       /\ length (Scan.markers texts)
          <= 2 * sum_list ((fun tc => length (Py.split Re.newline tc.2)) <$> texts).
Proof.
  intros (texts & Hread & Htasks & _ & Htotal)%generate_smart_tasks_inv. split.
  - rewrite Htasks, Htotal, length_take. lia.
  - exists texts. split_and!; [done| |apply length_markers].
    rewrite Htotal. apply length_omap_le.
Qed.

Lemma report_counts_witness :
  length (tasks Examples.worker_report) = total_found Examples.worker_report `min` 10.
Proof.
  apply (report_counts Examples.early_generator Examples.worker_tree).
  vm_compute. reflexivity.
Defined.

(** ** The module pattern of a scanned file *)

Lemma endswith_spec (p s : string) :
  Py.endswith p s = true <-> exists pre, s = pre +:+ p.
Proof.
  induction s as [|a s IH]; simpl.
  - rewrite orb_false_r, bool_decide_eq_true. split.
    + intros <-. by exists "".
    + intros [[|b pre] H]; [done|]. by rewrite append_cons in H.
  - rewrite orb_true_iff, bool_decide_eq_true, IH. split.
    + intros [<-|[pre ->]]; [by exists "" | by exists (String a pre)].
    + intros [[|b pre] H]; [by left|]. right. rewrite append_cons in H.
      injection H as -> ->. by exists pre.
Qed.

Lemma rfind_dot_erl (base : string) :
  Py.rfind "."%char (base +:+ ".erl") = Some (String.length base).
Proof.
  induction base as [|a base IH]; [done|].
  rewrite append_cons. simpl. by rewrite IH.
Qed.

Lemma take_append (base rest : string) : Py.take (String.length base) (base +:+ rest) = base.
Proof.
  induction base as [|a base IH]; [by destruct rest|].
  rewrite append_cons. simpl. by rewrite IH.
Qed.

Lemma stem_of_erl (base : string) :
  PathOps.stem_of (base +:+ ".erl") = if decide (base = "") then ".erl" else base.
Proof.
  unfold PathOps.stem_of. rewrite rfind_dot_erl, length_append.
  destruct base as [|a base]; [done|].
  rewrite decide_False by done.
  replace (0 <? String.length (String a base)) with true by done.
  replace (String.length (String a base) <? String.length (String a base)
             + String.length ".erl" - 1) with true.
  - apply take_append.
  - symmetry. apply Nat.ltb_lt. simpl. lia.
Qed.

(** X13: the module pattern the checker gets for a scanned file is the name
    of the file without its suffix [.erl] (for a file called just [.erl],
    the whole name); it is never empty. *)
Theorem module_pattern_of_scanned_file (root : Path) (tree : node) (rel : list string)
    (erl_file : Path) (n : node) :
  (erl_file, n) ∈ FS.glob root tree rel ->
  PathOps.stem erl_file <> ""
  /\ ((PathOps.name erl_file = ".erl" /\ PathOps.stem erl_file = ".erl")
      \/ PathOps.name erl_file = PathOps.stem erl_file +:+ ".erl").
Proof.
  intros (entries & nm & _ & -> & _ & [base ->]%endswith_spec)%elem_of_glob.
  unfold PathOps.stem. rewrite name_joinpath, stem_of_erl.
  destruct (decide (base = "")) as [->|Hne]; [split; [done | by left]|].
  split; [done | by right].
Qed.

Lemma module_pattern_of_scanned_file_witness :
  PathOps.stem (Examples.root // (SmartTaskGeneratorM.memory_dir ++ ["worker.erl"])) <> "".
Proof.
  eapply (module_pattern_of_scanned_file Examples.root Examples.worker_tree
            SmartTaskGeneratorM.memory_dir).
  vm_compute. apply list_elem_of_here.
Defined.
